(** * dbt-checkpoint: check_script_has_no_table_name

    A shallow embedding of [src/dbt_checkpoint/check_script_has_no_table_name.py].

    - [Text]     : the text helpers of the hook ([replace_comments],
                   [add_space_to_parenthesis], [add_space_to_braces],
                   [add_space_to_source_ref]); each regular expression is
                   embedded as the scan Python's [re.sub] runs for it.
    - [Runner]   : [has_table_name] and [main], written in a small
                   exception-and-trace monad over the external
                   collaborators (manifest loader, file system, SQL grammar,
                   telemetry).
    - [Scenario] : a sample project to run the hook on.

    The facts about the helpers and about the runner follow the
    definitions. *)

From Stdlib Require Import ZArith Ascii String.
From stdpp Require Import base list strings gmap.

#[local] Set Warnings "-clear-no-such-hyp".

Local Open Scope char_scope.

(* ===================================================================== *)
(** ** Text helpers                                                        *)
(* ===================================================================== *)

Module Text.

(** Python strings are sequences of characters; the scanners work on
    [list ascii] and the entry points convert from and to [string]. *)
Abbreviation chars := list_ascii_of_string.
Abbreviation text := string_of_list_ascii.

(** *** REGEX_COMMENTS

    [(?<=(\/\*|\{#))((.|[\r\n])+?)(?=(\*+\/|#\}))|[ \t]*--.*] *)

(** [[ \t]] *)
Definition is_blank (c : ascii) : bool := (c =? " ") || (c =? "009").

(** [.] matches every character but the line feed. *)
Definition is_newline (c : ascii) : bool := (c =? "010").

(** The look-behind [(?<=(\/\*|\{#))], on the two characters that precede
    the current position in the subject string ([p1] is the nearest). *)
Definition after_open (p2 p1 : option ascii) : bool :=
  match p2, p1 with
  | Some a, Some b => ((a =? "/") && (b =? "*")) || ((a =? "{") && (b =? "#"))
  | _, _ => false
  end.

(** [\**\/] : the tail of [\*+\/] once a first star has been seen. *)
Fixpoint stars_slash (l : list ascii) : bool :=
  match l with
  | c :: r => if c =? "*" then stars_slash r else (c =? "/")
  | [] => false
  end.

(** The look-ahead [(?=(\*+\/|#\}))]. *)
Definition at_close (l : list ascii) : bool :=
  match l with
  | c :: r =>
      if c =? "*" then stars_slash r
      else if c =? "#" then match r with d :: _ => (d =? "}") | [] => false end
      else false
  | [] => false
  end.

(** Number of characters up to the first position where the look-ahead
    succeeds. *)
Fixpoint until_close (l : list ascii) : option nat :=
  if at_close l then Some 0
  else match l with
       | _ :: r => S <$> until_close r
       | [] => None
       end.

(** [((.|[\r\n])+?)(?=...)] : the lazy body takes one character (any one:
    the line feed is covered by the second branch) and then as few more as
    the look-ahead allows. *)
Definition block_len (l : list ascii) : option nat :=
  match l with
  | _ :: r => S <$> until_close r
  | [] => None
  end.

(** [.*] *)
Fixpoint line_rest (l : list ascii) : nat :=
  match l with
  | c :: r => if is_newline c then 0 else S (line_rest r)
  | [] => 0
  end.

(** [[ \t]*--.*] : the blanks are taken greedily; giving one back never
    helps, since a blank is not a dash. *)
Fixpoint dash_len (l : list ascii) : option nat :=
  match l with
  | c :: r =>
      if is_blank c then S <$> dash_len r
      else if c =? "-" then
        match r with
        | d :: r' => if d =? "-" then Some (2 + line_rest r') else None
        | [] => None
        end
      else None
  | [] => None
  end.

(** Length of the match of REGEX_COMMENTS that starts at the current
    position, if there is one: the first alternative is tried first. *)
Definition comment_at (p2 p1 : option ascii) (l : list ascii) : option nat :=
  if after_open p2 p1 then
    match block_len l with
    | Some n => Some n
    | None => dash_len l
    end
  else dash_len l.

(** [re.sub(REGEX_COMMENTS, "", sql)]: scan from the left; where a match
    starts, drop it and go on behind it, otherwise keep the character.
    [skip] counts the characters of the current match still to drop. *)
Fixpoint sub_comments (p2 p1 : option ascii) (skip : nat) (l : list ascii)
  : list ascii :=
  match l with
  | [] => []
  | c :: r =>
      match skip with
      | S k => sub_comments p1 (Some c) k r
      | O =>
          match comment_at p2 p1 l with
          | Some (S k) => sub_comments p1 (Some c) k r
          | _ => c :: sub_comments p1 (Some c) 0 r
          end
      end
  end.

Definition replace_comments (sql : string) : string :=
  text (sub_comments None None 0 (chars sql)).

(** *** REGEX_PARENTHESIS and REGEX_BRACES *)

(** [re.sub(r"([...])", r" \1 ", sql)] for a one-character class. *)
Definition pad_class (cls : ascii -> bool) (l : list ascii) : list ascii :=
  c ← l; if cls c then [" "; c; " "] else [c].

Definition is_parenthesis (c : ascii) : bool := (c =? "(") || (c =? ")").
Definition is_brace (c : ascii) : bool := (c =? "{") || (c =? "}").

Definition add_space_to_parenthesis (sql : string) : string :=
  text (pad_class is_parenthesis (chars sql)).

Definition add_space_to_braces (sql : string) : string :=
  text (pad_class is_brace (chars sql)).

(** *** str.replace *)

Fixpoint starts_with (old l : list ascii) : bool :=
  match old, l with
  | [], _ => true
  | a :: old', b :: l' => (a =? b) && starts_with old' l'
  | _ :: _, [] => false
  end.

(** [s.replace(old, new)] for a non-empty [old]: occurrences are found from
    the left and do not overlap. *)
Fixpoint str_replace (old new : list ascii) (skip : nat) (l : list ascii)
  : list ascii :=
  match l with
  | [] => []
  | c :: r =>
      match skip with
      | S k => str_replace old new k r
      | O =>
          if starts_with old l
          then new ++ str_replace old new (length old - 1) r
          else c :: str_replace old new 0 r
      end
  end.

Definition add_space_to_source_ref (sql : string) : string :=
  text (str_replace (chars "}}") (chars " }}") 0
          (str_replace (chars "{{") (chars "{{ ") 0 (chars sql))).

(** The normalizer of the specification: the four helpers in the order the
    specification lists them (the source defines the helpers and calls none
    of them). *)
Definition normalize (sql : string) : string :=
  add_space_to_source_ref
    (add_space_to_braces (add_space_to_parenthesis (replace_comments sql))).

(** *** Predicates on texts *)

(** [sub in s] *)
Fixpoint contains (sub l : list ascii) : bool :=
  starts_with sub l ||
  match l with
  | _ :: r => contains sub r
  | [] => false
  end.

Definition str_contains (sub s : string) : bool :=
  contains (chars sub) (chars s).

Definition is_bracket (c : ascii) : bool := is_parenthesis c || is_brace c.

(** No parenthesis and no brace. *)
Definition no_brackets (s : string) : bool :=
  forallb (fun c => negb (is_bracket c)) (chars s).

(** The text at a position of the scan together with the character before
    it. *)
Definition with_prev (p1 : option ascii) (l : list ascii) : list ascii :=
  match p1 with
  | Some c => c :: l
  | None => l
  end.

(** A position of a text without brackets and without [/*]: the look-behind
    of REGEX_COMMENTS fails here and at every later position. *)
Definition quiet (p2 p1 : option ascii) (l : list ascii) : Prop :=
  after_open p2 p1 = false /\
  forallb (fun c => negb (is_bracket c)) (with_prev p1 l) = true /\
  contains ["/"; "*"] (with_prev p1 l) = false.

End Text.

Import Text.

(* ===================================================================== *)
(** ** The check runner                                                    *)
(* ===================================================================== *)

Module Runner.

Local Open Scope string_scope.
Local Open Scope list_scope.
Local Open Scope Z_scope.

(** The arguments after [parser.parse_args(argv)]: the options declared in
    [main] ([--ignore-dotless-table], [--dialect]) and, of those declared
    by [add_default_args], the ones [main] reads. *)
Record Namespace := {
  filenames : list string;
  ignore_dotless_table : bool;
  dialect : string;
  is_test : option bool
}.

(** [FluffConfig(overrides={"dialect": ..., "templater": ...})] *)
Record FluffConfig := {
  cfg_dialect : string;
  cfg_templater : string
}.

(** The exceptions of the collaborators: of the manifest loader, of
    [Path.read_text], and of the grammar on a text it cannot parse. *)
Inductive exn :=
| JsonOpenError (cause : string)
| OSError (cause : string)
| ParseError (cause : string).

(** What a run does to the outside world, in order. *)
Inductive event :=
| Print (args : list string)
| ReadText (filename : string)
| Parse (config : FluffConfig) (sql : string)
| TrackHookEvent (event_name : string) (status : Z) (is_pytest : option bool).

#[global] Instance FluffConfig_eq_dec : EqDecision FluffConfig.
Proof. solve_decision. Defined.
#[global] Instance exn_eq_dec : EqDecision exn.
Proof. solve_decision. Defined.
#[global] Instance event_eq_dec : EqDecision event.
Proof. solve_decision. Defined.

(** Computations that may raise and that log their events. *)
Definition M (A : Type) : Type := list event -> (exn + A) * list event.

#[global] Instance M_ret : MRet M := fun A a t => (inr a, t).
#[global] Instance M_bind : MBind M := fun A B f m t =>
  match m t with
  | (inl e, t') => (inl e, t')
  | (inr a, t') => f a t'
  end.

Definition emit (ev : event) : M unit := fun t => (inr tt, t ++ [ev]).
Definition lift {A} (r : exn + A) : M A := fun t => (r, t).

Definition outcome {A} (r : (exn + A) * list event) : exn + A := r.1.
Definition trace {A} (r : (exn + A) * list event) : list event := r.2.

Definition nl : string := String "010" "".

(** [sep.join(xs)] *)
Definition join (sep : string) (xs : list string) : string := String.concat sep xs.

(** ["." not in table] *)
Definition dotless_name (table : string) : bool :=
  negb (existsb (Ascii.eqb ".") (chars table)).

(** The dialect [has_table_name] takes when the caller passes none. *)
Definition default_dialect : string := "ansi".

Section Collaborators.

(** [dbt_checkpoint.utils] and the libraries: what they answer. *)
Context {Manifest : Type}.
Variable get_dbt_manifest : Namespace -> exn + Manifest.
Variable read_text : string -> exn + string.
(** [sqlfluff.parse(sql, config=config)] followed by
    [.tree.get_table_references()]. *)
Variable sqlfluff_parse : FluffConfig -> string -> exn + list string.
Variables red yellow : string -> string.

(** [has_table_name(sql, filename, dotless, dialect)]: neither [filename]
    nor [dotless] is read. *)
Definition has_table_name
    (sql filename : string) (dotless : bool) (dialect : string)
  : M (Z * gset string) :=
  let status_code := 0 in
  let config := {| cfg_dialect := dialect; cfg_templater := "dbt" |} in
  emit (Parse config sql);;
  parsed_sql ← lift (sqlfluff_parse config sql);
  let table_names : gset string := list_to_set parsed_sql in
  mret (status_code, table_names).

(** The two arguments of the [print] of the reporting branch. *)
Definition violation_report (filename : string) (tables : gset string)
  : list string :=
  let result := join (nl +:+ "- ") (elements tables) in
  [ red filename +:+ ": " +:+
      "does not use source() or ref() macros for tables:" +:+ nl;
    "- " +:+ yellow result ].

(** The [for filename in args.filenames] loop; [status_code] is the
    variable of [main] the loop assigns. *)
Fixpoint check_files (args : Namespace) (todo : list string)
    (status_code : Z) : M Z :=
  match todo with
  | [] => mret status_code
  | filename :: todo' =>
      emit (ReadText filename);;
      sql ← lift (read_text filename);
      '(status_code_file, tables) ←
        has_table_name sql filename (ignore_dotless_table args)
          default_dialect;
      status_code ←
        (if bool_decide (status_code_file ≠ 0) then
           emit (Print (violation_report filename tables));;
           mret status_code_file
         else mret status_code);
      check_files args todo' status_code
  end.

(** [main], from the parsed arguments on.  The two readings of the clock
    and the [execution_time] they give the telemetry event are left out;
    the tracker is taken to return.  The construction of the tracker from
    [vars(args)] is no event of its own: of the telemetry the trace shows
    the call of [track_hook_event] with the fields below, not what the
    tracker does with the arguments it was built from. *)
Definition main (args : Namespace) : M Z :=
  let status_code := 0 in
  match get_dbt_manifest args with
  | inl (JsonOpenError e) =>
      emit (Print ["Unable to load manifest file (" +:+ e +:+ ")"]);;
      mret 1
  | inl e => lift (inl e)
  | inr manifest =>
      status_code ← check_files args (filenames args) status_code;
      emit (TrackHookEvent "Hook Executed" status_code (is_test args));;
      mret status_code
  end.

(** The configuration [main] reaches the grammar with: its call of
    [has_table_name] passes no dialect. *)
Definition ansi_config : FluffConfig :=
  {| cfg_dialect := default_dialect; cfg_templater := "dbt" |}.

(** The events of checking the files of [todo] in order, up to the first
    exception, and that exception. *)
Fixpoint files_run (todo : list string) : option exn * list event :=
  match todo with
  | [] => (None, [])
  | filename :: todo' =>
      match read_text filename with
      | inl e => (Some e, [ReadText filename])
      | inr sql =>
          match sqlfluff_parse ansi_config sql with
          | inl e => (Some e, [ReadText filename; Parse ansi_config sql])
          | inr _ =>
              let '(e, evs) := files_run todo' in
              (e, ReadText filename :: Parse ansi_config sql :: evs)
          end
      end
  end.

(** The table references the grammar finds in a file, when the file can
    be read and parsed. *)
Definition tables_of (filename : string) : option (gset string) :=
  match read_text filename with
  | inr sql =>
      match sqlfluff_parse ansi_config sql with
      | inr refs => Some (list_to_set refs)
      | inl _ => None
      end
  | inl _ => None
  end.

End Collaborators.

End Runner.

Import Runner.

(* ===================================================================== *)
(** ** Sample collaborators                                                *)
(* ===================================================================== *)

(** A small project: four scripts on disk and the answers of the grammar
    on their texts. *)
Module Scenario.

Local Open Scope string_scope.
Local Open Scope list_scope.

Definition manifest_loaded (args : Namespace) : exn + unit := inr tt.

Definition manifest_missing (args : Namespace) : exn + unit :=
  inl (JsonOpenError "[Errno 2] No such file or directory: 'target/manifest.json'").

Definition read_text (filename : string) : exn + string :=
  if String.eqb filename "models/orders.sql" then inr "SELECT * FROM raw.orders"
  else if String.eqb filename "models/one.sql" then inr "SELECT 1 -- one"
  else if String.eqb filename "models/two.sql" then inr "SELECT 2"
  else if String.eqb filename "models/local.sql" then inr "SELECT * FROM orders"
  else if String.eqb filename "models/broken.sql" then inr "SELECT (1"
  else inl (OSError filename).

Definition sqlfluff_parse (config : FluffConfig) (sql : string)
  : exn + list string :=
  if String.eqb sql "SELECT * FROM raw.orders" then inr ["raw.orders"]
  else if String.eqb sql "SELECT * FROM orders" then inr ["orders"]
  else if String.eqb sql "SELECT (1" then inl (ParseError "unparsable section")
  else inr [].

Definition red (s : string) : string := s.
Definition yellow (s : string) : string := s.

Definition args_of (files : list string) : Namespace :=
  {| filenames := files; ignore_dotless_table := false;
     dialect := "ansi"; is_test := None |}.

Definition run (args : Namespace) : (exn + Z) * list event :=
  main manifest_loaded read_text sqlfluff_parse red yellow args [].

Definition run_without_manifest (args : Namespace) : (exn + Z) * list event :=
  main manifest_missing read_text sqlfluff_parse red yellow args [].

Definition tables_of : string -> option (gset string) :=
  Runner.tables_of read_text sqlfluff_parse.

Definition has_table_name := Runner.has_table_name sqlfluff_parse.

End Scenario.

(* ===================================================================== *)
(** ** The word iterator                                                   *)
(* ===================================================================== *)

Module Words.

Section Lower.

(** [str.lower] *)
Variable lower : string -> string.

(** The triples yielded from the [while True] loop on: [prev] and [cur] are
    the variables of the generator, [rest] is what [sql_iter] still holds.
    When [next(sql_iter)] raises [StopIteration] the handler yields the
    last triple. *)
Fixpoint iter_from (prev : option string) (cur : string) (rest : list string)
  : list (option string * string * option string) :=
  match rest with
  | [] => [(prev, cur, None)]
  | w :: rest' =>
      let nxt := lower w in
      (prev, cur, Some nxt) :: iter_from (Some cur) nxt rest'
  end.

(** [prev_cur_next_iter(sql)], as the list of the triples it yields.  The
    first [next(sql_iter)] stands outside the [try]: on an empty sequence
    its [StopIteration] leaves the generator, which raises before it yields
    anything ([None]). *)
Definition prev_cur_next_iter (sql : list string)
  : option (list (option string * string * option string)) :=
  match sql with
  | [] => None
  | w :: rest => Some (iter_from None (lower w) rest)
  end.

End Lower.

End Words.

Import Words.

(* ===================================================================== *)
(** ** Measures of texts and traces                                        *)
(* ===================================================================== *)

Module Measures.

(** The text without its spaces. *)
Definition spaceless (l : list ascii) : list ascii :=
  List.filter (fun c => negb (c =? " ")) l.

(** The number of line feeds. *)
Definition line_feeds (l : list ascii) : nat :=
  length (List.filter is_newline l).

(** The number of characters of a class. *)
Definition count_class (cls : ascii -> bool) (l : list ascii) : nat :=
  length (List.filter cls l).

(** Neither a star nor a hash. *)
Definition no_star_hash (c : ascii) : bool :=
  negb (c =? "*") && negb (c =? "#").

(** A position of a text without block-comment opener: the look-behind of
    REGEX_COMMENTS fails here and at every later position. *)
Definition calm (p2 p1 : option ascii) (l : list ascii) : Prop :=
  after_open p2 p1 = false /\
  contains ["/"; "*"] (with_prev p1 l) = false /\
  contains ["{"; "#"] (with_prev p1 l) = false.

(** Every [{{] of the text is followed by a space. *)
Definition opens_padded (l : list ascii) : Prop :=
  forall i : nat,
    l !! i = Some "{" -> l !! S i = Some "{" -> l !! S (S i) = Some " ".

(** The files a trace reads, in order. *)
Definition reads (t : list event) : list string :=
  ev ← t; match ev with ReadText filename => [filename] | _ => [] end.

(** The texts a trace hands to the grammar, in order. *)
Definition parses (t : list event) : list string :=
  ev ← t; match ev with Parse _ sql => [sql] | _ => [] end.

(** A trace without its telemetry events. *)
Definition untracked (t : list event) : list event :=
  ev ← t; match ev with TrackHookEvent _ _ _ => [] | _ => [ev] end.

(** The telemetry events of a trace. *)
Definition telemetry (t : list event) : list event :=
  ev ← t; match ev with TrackHookEvent _ _ _ => [ev] | _ => [] end.

End Measures.

Import Measures.

(* ===================================================================== *)
(** ** Facts about the text helpers                                        *)
(* ===================================================================== *)

Section TextFacts.

Implicit Types (l r : list ascii) (c x : ascii).

#[local] Arguments Ascii.eqb : simpl never.
Implicit Types (k n : nat).

(** *** Where a match of REGEX_COMMENTS ends *)

Lemma at_close_head l :
  at_close l = true -> head l = Some "*" \/ head l = Some "#".
Proof.
  destruct l as [|c r]; simpl; [done|].
  destruct (Ascii.eqb_spec c "*") as [->|]; [by left|].
  destruct (Ascii.eqb_spec c "#") as [->|]; [by right|done].
Qed.

Lemma until_close_cons c r :
  until_close (c :: r) =
    if at_close (c :: r) then Some 0 else S <$> until_close r.
Proof. reflexivity. Qed.

Lemma until_close_end l n :
  until_close l = Some n -> at_close (drop n l) = true.
Proof.
  revert n. induction l as [|c r IH]; intros n; [done|].
  rewrite until_close_cons. destruct (at_close (c :: r)) eqn:E.
  - by intros [= <-].
  - destruct (until_close r) as [m|]; [|done].
    intros [= <-]. by apply IH.
Qed.

Lemma block_len_end l n :
  block_len l = Some n -> n <> 0 /\ at_close (drop n l) = true.
Proof.
  destruct l as [|c r]; [done|]. simpl.
  destruct (until_close r) as [m|] eqn:E; [|done].
  intros [= <-]. split; [done|]. simpl. by apply until_close_end.
Qed.

Lemma line_rest_end l :
  head (drop (line_rest l) l) = None \/
  head (drop (line_rest l) l) = Some "010".
Proof.
  induction l as [|c r IH]; [by left|]. simpl.
  unfold is_newline. destruct (Ascii.eqb_spec c "010") as [->|]; [by right|].
  exact IH.
Qed.

Lemma dash_len_end l n :
  dash_len l = Some n ->
  n <> 0 /\ (head (drop n l) = None \/ head (drop n l) = Some "010").
Proof.
  revert n. induction l as [|c r IH]; intros n; [done|]. simpl.
  destruct (is_blank c).
  - destruct (dash_len r) as [m|]; [|done]. intros [= <-].
    split; [done|]. by apply IH.
  - destruct (Ascii.eqb c "-"); [|done].
    destruct r as [|d r']; [done|].
    destruct (Ascii.eqb d "-"); [|done].
    intros [= <-]. split; [done|]. apply line_rest_end.
Qed.

Lemma comment_at_end p2 p1 l n :
  comment_at p2 p1 l = Some n ->
  n <> 0 /\ head (drop n l) <> Some "-".
Proof.
  unfold comment_at. intros H.
  assert (block_len l = Some n \/ dash_len l = Some n) as [Hb|Hd].
  { destruct (after_open p2 p1); [|by right].
    destruct (block_len l); [left; congruence|by right]. }
  - apply block_len_end in Hb as [? Hc]. split; [done|].
    apply at_close_head in Hc as [-> | ->]; discriminate.
  - apply dash_len_end in Hd as [? [-> | ->]]; split; done.
Qed.

(** Two dashes at the current position always start a match. *)
Lemma comment_at_dashes p2 p1 r :
  exists k, comment_at p2 p1 ("-" :: "-" :: r) = Some (S k).
Proof.
  unfold comment_at. destruct (after_open p2 p1).
  - destruct (block_len ("-" :: "-" :: r)) as [n|] eqn:E.
    + apply block_len_end in E as [? _]. destruct n; [done|]. by eexists.
    + simpl. by eexists.
  - simpl. by eexists.
Qed.

(** *** The scanner only deletes *)

Lemma sub_comments_sublist l : forall p2 p1 k,
  sublist (sub_comments p2 p1 k l) l.
Proof.
  induction l as [|c r IH]; intros p2 p1 k; [done|].
  cbn [sub_comments]. destruct k as [|k].
  - destruct (comment_at p2 p1 (c :: r)) as [[|k]|].
    + by apply sublist_skip.
    + by apply sublist_cons.
    + by apply sublist_skip.
  - by apply sublist_cons.
Qed.

(** *** No line-comment marker is left *)

(** The first character the scanner keeps: a dash is kept only where it
    stands, never behind a deleted match. *)
Lemma sub_comments_head_dash l : forall p2 p1 k,
  head (sub_comments p2 p1 k l) = Some "-" ->
  head (drop k l) = Some "-".
Proof.
  induction l as [|c r IH]; intros p2 p1 k; [by destruct k|].
  cbn [sub_comments]. destruct k as [|k]; [|by apply IH].
  destruct (comment_at p2 p1 (c :: r)) as [[|k]|] eqn:E; [done| |done].
  intros H%IH. apply comment_at_end in E as [_ E]. by destruct E.
Qed.

Lemma contains_cons sub c r :
  contains sub (c :: r) = starts_with sub (c :: r) || contains sub r.
Proof. reflexivity. Qed.

Lemma starts_with_dashes l :
  starts_with ["-"; "-"] l = true ->
  exists r, l = "-" :: "-" :: r.
Proof.
  destruct l as [|c [|d r]]; simpl; try done.
  - by rewrite andb_false_r.
  - destruct (Ascii.eqb_spec "-" c) as [<-|]; [|done].
    destruct (Ascii.eqb_spec "-" d) as [<-|]; [|done]. by eexists.
Qed.

Lemma sub_comments_no_dashes l : forall p2 p1 k,
  contains ["-"; "-"] (sub_comments p2 p1 k l) = false.
Proof.
  induction l as [|c r IH]; intros p2 p1 k; [done|].
  cbn [sub_comments]. destruct k as [|k]; [|by apply IH].
  destruct (comment_at p2 p1 (c :: r)) as [[|k]|] eqn:E; [|by apply IH|].
  all: rewrite contains_cons, IH, orb_false_r.
  all: apply not_true_is_false; intros Hs.
  all: apply starts_with_dashes in Hs as (out & Hs).
  all: injection Hs as -> Hs.
  all: assert (head r = Some "-") as Hr
      by (apply (sub_comments_head_dash r p1 (Some "-") 0); by rewrite Hs).
  all: destruct r as [|d r']; [done|]; injection Hr as ->.
  all: destruct (comment_at_dashes p2 p1 r') as [j Hj]; congruence.
Qed.

(** C6 (amended).  For every SQL string the output of comment stripping
    contains no [--], and removing a comment never alters the order of what
    remains: the output is the input with characters deleted. *)
Theorem replace_comments_deletes_only s :
  str_contains "--" (replace_comments s) = false /\
  sublist (chars (replace_comments s)) (chars s).
Proof.
  unfold str_contains, replace_comments.
  rewrite list_ascii_of_string_of_list_ascii. split.
  - apply sub_comments_no_dashes.
  - apply sub_comments_sublist.
Qed.

(** C6, as stated, fails: here the delimiters of the block comment stay
    in the output. *)
Lemma block_comment_delimiters_stay :
  replace_comments "SELECT 1 /* one */ FROM t" = "SELECT 1 /**/ FROM t"%string
  /\ str_contains "/*" (replace_comments "SELECT 1 /* one */ FROM t") = true
  /\ str_contains "*/" (replace_comments "SELECT 1 /* one */ FROM t") = true.
Proof. repeat split. Qed.

(** *** Texts the padding steps leave alone *)

Lemma pad_class_id cls l :
  forallb (fun c => negb (cls c)) l = true -> pad_class cls l = l.
Proof.
  induction l as [|c r IH]; [done|]. cbn [forallb].
  intros [Hc Hr]%andb_true_iff. unfold pad_class in *. cbn.
  destruct (cls c); [done|]. simpl. f_equal. by apply IH.
Qed.

Lemma str_replace_id a old new l :
  forallb (fun c => negb (Ascii.eqb a c)) l = true ->
  str_replace (a :: old) new 0 l = l.
Proof.
  induction l as [|c r IH]; [done|]. cbn [forallb].
  intros [Hc Hr]%andb_true_iff. cbn [str_replace starts_with].
  destruct (Ascii.eqb a c); [done|]. simpl. f_equal. by apply IH.
Qed.

Lemma forallb_weaken (P Q : ascii -> bool) l :
  (forall c, P c = true -> Q c = true) ->
  forallb P l = true -> forallb Q l = true.
Proof.
  intros HPQ. induction l as [|c r IH]; [done|]. cbn [forallb].
  intros [Hc Hr]%andb_true_iff. by rewrite (HPQ _ Hc), IH.
Qed.

Lemma sub_comments_forallb (P : ascii -> bool) l : forall p2 p1 k,
  forallb P l = true -> forallb P (sub_comments p2 p1 k l) = true.
Proof.
  induction l as [|c r IH]; intros p2 p1 k; [done|]. cbn [forallb].
  intros [Hc Hr]%andb_true_iff. cbn [sub_comments].
  destruct k as [|k]; [|by apply IH].
  destruct (comment_at p2 p1 (c :: r)) as [[|k]|]; [|by apply IH|].
  all: cbn [forallb]; by rewrite Hc, IH.
Qed.

(** Without brackets, only the comment step of the normalizer acts. *)
Lemma normalize_no_brackets s :
  no_brackets s = true -> normalize s = replace_comments s.
Proof.
  unfold no_brackets. intros Hs.
  pose proof (sub_comments_forallb _ _ None None 0 Hs) as Hout.
  unfold normalize, add_space_to_source_ref, add_space_to_braces,
    add_space_to_parenthesis, replace_comments.
  rewrite !list_ascii_of_string_of_list_ascii.
  rewrite (pad_class_id is_parenthesis).
  2:{ revert Hout. apply forallb_weaken. intros c.
      unfold is_bracket. by destruct (is_parenthesis c). }
  rewrite (pad_class_id is_brace).
  2:{ revert Hout. apply forallb_weaken. intros c.
      unfold is_bracket. destruct (is_brace c); [|done].
      by rewrite orb_true_r. }
  change (chars "{{") with ["{"; "{"]. change (chars "}}") with ["}"; "}"].
  rewrite (str_replace_id "{").
  2:{ revert Hout. apply forallb_weaken. intros c.
      unfold is_bracket, is_brace.
      rewrite (Ascii.eqb_sym "{" c). destruct (Ascii.eqb c "{"); [|done].
      simpl. by rewrite orb_true_r. }
  rewrite (str_replace_id "}").
  2:{ revert Hout. apply forallb_weaken. intros c.
      unfold is_bracket, is_brace.
      rewrite (Ascii.eqb_sym "}" c). destruct (Ascii.eqb c "}"); [|done].
      by rewrite !orb_true_r. }
  done.
Qed.

(** *** Texts without brackets and without a block-comment opener *)

Lemma starts_with_pair a b l :
  starts_with [a; b] l = true -> exists r, l = a :: b :: r.
Proof.
  destruct l as [|c [|d r]]; cbn [starts_with]; try done.
  - by rewrite andb_false_r.
  - destruct (Ascii.eqb_spec a c) as [<-|]; [|done].
    destruct (Ascii.eqb_spec b d) as [<-|]; [|done]. by eexists.
Qed.

Lemma quiet_step p2 p1 c r : quiet p2 p1 (c :: r) -> quiet p1 (Some c) r.
Proof.
  intros (_ & Hnb & Hno). destruct p1 as [b|]; [|by repeat split].
  cbn [with_prev forallb] in *.
  apply andb_true_iff in Hnb as [Hb Hnb].
  rewrite contains_cons in Hno. apply orb_false_iff in Hno as [Hst Hno].
  repeat split; [|done|done].
  unfold after_open. apply not_true_is_false.
  intros [[Hb1 Hc]%andb_true_iff|[Hb1 Hc]%andb_true_iff]%orb_true_iff.
  - apply Ascii.eqb_eq in Hb1 as ->. apply Ascii.eqb_eq in Hc as ->.
    by vm_compute in Hst.
  - apply Ascii.eqb_eq in Hb1 as ->. by vm_compute in Hb.
Qed.

Lemma quiet_comment_at p2 p1 l :
  quiet p2 p1 l -> comment_at p2 p1 l = dash_len l.
Proof. intros (H & _). unfold comment_at. by rewrite H. Qed.

Lemma quiet_not_open p2 p1 r : ~ quiet p2 p1 ("/" :: "*" :: r).
Proof.
  intros (_ & _ & Hno). destruct p1 as [b|]; cbn [with_prev] in Hno.
  - rewrite contains_cons in Hno. by apply orb_false_iff in Hno as [_ Hno].
  - done.
Qed.

(** Behind a deleted line comment the scanner keeps a line feed. *)
Lemma sub_comments_head_quiet l : forall p2 p1 k x,
  quiet p2 p1 l ->
  head (sub_comments p2 p1 k l) = Some x ->
  head (drop k l) = Some x \/ x = "010".
Proof.
  induction l as [|c r IH]; intros p2 p1 k x Hq; [by destruct k|].
  cbn [sub_comments]. pose proof (quiet_step _ _ _ _ Hq) as Hq'.
  destruct k as [|k]; [|by apply IH].
  rewrite (quiet_comment_at _ _ _ Hq).
  destruct (dash_len (c :: r)) as [[|j]|] eqn:E; [by left| |by left].
  intros [H| ->]%IH; [|by right|done].
  apply dash_len_end in E as [_ [E|E]]; simpl in E; [congruence|].
  right. congruence.
Qed.

Lemma sub_comments_no_open l : forall p2 p1 k,
  quiet p2 p1 l ->
  contains ["/"; "*"] (sub_comments p2 p1 k l) = false.
Proof.
  induction l as [|c r IH]; intros p2 p1 k Hq; [done|].
  cbn [sub_comments]. pose proof (quiet_step _ _ _ _ Hq) as Hq'.
  destruct k as [|k]; [|by apply IH].
  destruct (comment_at p2 p1 (c :: r)) as [[|k]|] eqn:E; [|by apply IH|].
  all: rewrite contains_cons, IH, orb_false_r by done.
  all: apply not_true_is_false; intros Hs.
  all: apply starts_with_pair in Hs as (out & Hs).
  all: injection Hs as -> Hs.
  all: destruct (sub_comments_head_quiet r p1 (Some "/") 0 "*" Hq')
      as [Hr|Hr]; [by rewrite Hs| |done].
  all: destruct r as [|d r']; [done|]; injection Hr as ->.
  all: by apply quiet_not_open in Hq.
Qed.

Lemma dash_len_contains l n :
  dash_len l = Some n -> contains ["-"; "-"] l = true.
Proof.
  revert n. induction l as [|c r IH]; intros n; [done|].
  rewrite contains_cons. cbn [dash_len]. destruct (is_blank c).
  - destruct (dash_len r) as [m|]; [|done]. intros _.
    by rewrite (IH m), orb_true_r.
  - destruct (Ascii.eqb_spec c "-") as [->|]; [|done].
    destruct r as [|d r']; [done|].
    destruct (Ascii.eqb_spec d "-") as [->|]; [|done]. done.
Qed.

(** Nothing to delete: no block-comment opener and no [--]. *)
Lemma sub_comments_fixed l : forall p2 p1,
  quiet p2 p1 l -> contains ["-"; "-"] l = false ->
  sub_comments p2 p1 0 l = l.
Proof.
  induction l as [|c r IH]; intros p2 p1 Hq Hd; [done|].
  cbn [sub_comments]. rewrite (quiet_comment_at _ _ _ Hq).
  destruct (dash_len (c :: r)) as [n|] eqn:E.
  { apply dash_len_contains in E. congruence. }
  f_equal. apply IH; [by eapply quiet_step|].
  rewrite contains_cons in Hd. by apply orb_false_iff in Hd as [_ Hd].
Qed.

(** C5 (amended).  Normalization is idempotent on every string that has
    no parenthesis, no brace and no [/*]: there
    [normalize (normalize s) = normalize s].  (On other strings it need
    not be: every pass pads the brackets again.) *)
Theorem normalize_idempotent_without_brackets s :
  no_brackets s = true ->
  str_contains "/*" s = false ->
  normalize (normalize s) = normalize s.
Proof.
  intros Hnb Hno. rewrite (normalize_no_brackets s Hnb).
  assert (no_brackets (replace_comments s) = true) as Hnb'.
  { unfold no_brackets, replace_comments.
    rewrite list_ascii_of_string_of_list_ascii.
    by apply sub_comments_forallb. }
  rewrite (normalize_no_brackets _ Hnb').
  assert (quiet None None (chars s)) as Hq by (by repeat split).
  unfold no_brackets in Hnb'. unfold replace_comments in *.
  rewrite list_ascii_of_string_of_list_ascii in *. f_equal.
  apply sub_comments_fixed.
  - repeat split; [done|]. by apply sub_comments_no_open.
  - apply sub_comments_no_dashes.
Qed.

(** Witness of C5 (amended): a script with a line comment. *)
Lemma normalize_idempotent_without_brackets_witness :
  normalize "SELECT a -- pick a" = "SELECT a"%string /\
  normalize (normalize "SELECT a -- pick a") = normalize "SELECT a -- pick a".
Proof.
  split; [reflexivity|].
  apply (normalize_idempotent_without_brackets "SELECT a -- pick a").
  - reflexivity.
  - reflexivity.
Defined.

(** C5, as stated, fails: a second pass pads the parentheses again. *)
Lemma normalize_not_idempotent :
  normalize "count(x)" = "count ( x ) "%string /\
  normalize (normalize "count(x)") = "count  (  x  )  "%string /\
  normalize (normalize "count(x)") <> normalize "count(x)".
Proof. repeat split. by vm_compute. Qed.

(** Nor is it idempotent on the block comments of a text without brackets:
    once a comment body is deleted, the opener left behind pairs with a
    later closer. *)
Lemma normalize_twice_block_comments :
  normalize "/*a*/ x */" = "/**/ x */"%string /\
  normalize (normalize "/*a*/ x */") = "/**/"%string.
Proof. by split. Qed.

End TextFacts.

(* ===================================================================== *)
(** ** Facts about the runner                                              *)
(* ===================================================================== *)

Section RunnerFacts.

Local Open Scope string_scope.
Local Open Scope list_scope.
Local Open Scope Z_scope.

Context {Manifest : Type}.
Variable get_dbt_manifest : Namespace -> exn + Manifest.
Variable read_text : string -> exn + string.
Variable sqlfluff_parse : FluffConfig -> string -> exn + list string.
Variables red yellow : string -> string.

Local Abbreviation has_table_name := (has_table_name sqlfluff_parse).
Local Abbreviation check_files :=
  (check_files read_text sqlfluff_parse red yellow).
Local Abbreviation main :=
  (main get_dbt_manifest read_text sqlfluff_parse red yellow).
Local Abbreviation files_run := (files_run read_text sqlfluff_parse).
Local Abbreviation tables_of := (tables_of read_text sqlfluff_parse).
Local Abbreviation violation_report := (violation_report red yellow).

Ltac run_monad :=
  unfold mbind, M_bind, mret, M_ret, emit, lift; simpl.

(** Membership of an event in an explicit trace. *)
Ltac trace_solver :=
  unfold not;
  rewrite ?elem_of_app, ?elem_of_cons, ?elem_of_nil in *;
  naive_solver.

(** One call of [has_table_name]: the grammar is asked once, and its
    answer is passed on with status 0. *)
Lemma has_table_name_run sql filename dotless dialect t :
  has_table_name sql filename dotless dialect t =
    (match sqlfluff_parse
             {| cfg_dialect := dialect; cfg_templater := "dbt" |} sql with
     | inl e => inl e
     | inr refs => inr (0, list_to_set refs)
     end,
     t ++ [Parse {| cfg_dialect := dialect; cfg_templater := "dbt" |} sql]).
Proof.
  unfold Runner.has_table_name. run_monad.
  destruct (sqlfluff_parse _ sql); reflexivity.
Qed.

(** The loop, started with status 0: it ends with status 0 or with the
    first exception, and its events are those of [files_run]. *)
Lemma check_files_run args todo t :
  check_files args todo 0 t =
    (match (files_run todo).1 with
     | Some e => inl e
     | None => inr 0
     end,
     t ++ (files_run todo).2).
Proof.
  revert t. induction todo as [|filename todo IH]; intros t.
  - simpl. run_monad. by rewrite app_nil_r.
  - cbn [Runner.check_files Runner.files_run].
    unfold mbind at 1, M_bind at 1. unfold emit at 1.
    unfold mbind at 1, M_bind at 1. unfold lift at 1.
    destruct (read_text filename) as [e|sql]; [reflexivity|].
    unfold mbind at 1, M_bind at 1. rewrite has_table_name_run.
    fold ansi_config.
    destruct (sqlfluff_parse ansi_config sql) as [e|refs].
    + simpl. by rewrite <- app_assoc.
    + rewrite bool_decide_false by (intros H; by apply H).
      unfold mbind at 1, M_bind at 1. unfold mret at 1, M_ret at 1.
      rewrite IH. destruct (files_run todo) as [o evs]. simpl.
      by rewrite <- !app_assoc.
Qed.

(** A run that gets past the manifest. *)
Lemma main_run args manifest t :
  get_dbt_manifest args = inr manifest ->
  main args t =
    match (files_run (filenames args)).1 with
    | Some e => (inl e, t ++ (files_run (filenames args)).2)
    | None =>
        (inr 0,
         t ++ (files_run (filenames args)).2
           ++ [TrackHookEvent "Hook Executed" 0 (is_test args)])
    end.
Proof.
  intros Hm. unfold Runner.main. rewrite Hm.
  unfold mbind at 1, M_bind at 1. rewrite check_files_run.
  destruct (files_run (filenames args)) as [[e|] evs]; simpl; [done|].
  run_monad. by rewrite <- app_assoc.
Qed.

(** When every file can be read and parsed, the loop meets no exception. *)
Lemma files_run_clean todo :
  (forall f, f ∈ todo -> is_Some (tables_of f)) ->
  (files_run todo).1 = None.
Proof.
  induction todo as [|f todo IH]; intros Hall; [done|].
  cbn [Runner.files_run].
  pose proof (Hall f ltac:(left)) as [T HT]. unfold Runner.tables_of in HT.
  destruct (read_text f) as [|sql]; [done|].
  destruct (sqlfluff_parse ansi_config sql); [done|].
  specialize (IH (fun g Hg => Hall g ltac:(by right))).
  destruct (files_run todo) as [o evs]. exact IH.
Qed.

(** The loop prints nothing. *)
Lemma files_run_no_print todo args :
  Print args ∉ (files_run todo).2.
Proof.
  induction todo as [|f todo IH]; cbn [Runner.files_run].
  - simpl. by intros ?%elem_of_nil.
  - destruct (read_text f) as [|sql].
    { simpl. trace_solver. }
    destruct (sqlfluff_parse ansi_config sql).
    { simpl. trace_solver. }
    destruct (files_run todo) as [o evs]. simpl in *. trace_solver.
Qed.

(** Every request to the grammar carries the raw text of a listed file
    and the default configuration. *)
Lemma files_run_parse todo config sql :
  Parse config sql ∈ (files_run todo).2 ->
  config = ansi_config /\ exists f, f ∈ todo /\ read_text f = inr sql.
Proof.
  induction todo as [|f todo IH]; cbn [Runner.files_run].
  - simpl. by intros ?%elem_of_nil.
  - destruct (read_text f) as [|sql0] eqn:Hr.
    { simpl. trace_solver. }
    assert (Parse config sql = Parse ansi_config sql0 ->
            config = ansi_config /\
            exists g, g ∈ f :: todo /\ read_text g = inr sql) as Hhere.
    { intros [= -> ->]. split; [done|]. exists f. split; [by left|done]. }
    destruct (sqlfluff_parse ansi_config sql0).
    { simpl. intros [?|[?|?%elem_of_nil]%elem_of_cons]%elem_of_cons;
        [done|by apply Hhere|done]. }
    destruct (files_run todo) as [o evs]. simpl in *.
    intros [?|[?|Hin]%elem_of_cons]%elem_of_cons; [done|by apply Hhere|].
    destruct (IH Hin) as [-> (g & Hg & Hsql)].
    split; [done|]. exists g. split; [by right|done].
Qed.

(** A clean prefix of the file list adds its events and nothing else. *)
Lemma files_run_app before rest :
  (forall g, g ∈ before -> is_Some (tables_of g)) ->
  files_run (before ++ rest) =
    ((files_run rest).1, (files_run before).2 ++ (files_run rest).2).
Proof.
  induction before as [|g before IH]; intros Hall.
  - simpl. by destruct (files_run rest).
  - cbn [app Runner.files_run].
    pose proof (Hall g ltac:(left)) as [T HT]. unfold Runner.tables_of in HT.
    destruct (read_text g) as [|sql]; [done|].
    destruct (sqlfluff_parse ansi_config sql); [done|].
    rewrite IH by (intros h Hh; apply Hall; by right).
    destruct (files_run before) as [o evs]. reflexivity.
Qed.

(** C1 (defect of the code, the claim stands).  The claim: once the
    manifest is loaded, the status [main] returns is non-zero if and only
    if some file has a non-empty set of table references or raised a parse
    error.  The code: when the manifest loads and every file is read and
    parsed, [main] returns 0 even though a listed file [f] has a non-empty
    set [T] of table references, because [has_table_name] never leaves
    [status_code = 0]. *)
Theorem main_returns_zero_with_bare_tables args manifest t f T :
  get_dbt_manifest args = inr manifest ->
  (forall g, g ∈ filenames args -> is_Some (tables_of g)) ->
  f ∈ filenames args -> tables_of f = Some T -> T ≠ ∅ ->
  outcome (main args t) = inr 0.
Proof.
  intros Hm Hall _ _ _. rewrite (main_run _ _ _ Hm).
  by rewrite (files_run_clean _ Hall).
Qed.

(** C2 (defect of the code, the claim stands).  The claim: for the single
    file [SELECT * FROM raw.orders] the check reports the set
    [{"raw.orders"}] and the run's status is non-zero.  The code:
    [has_table_name] does return that set, with status 0, and [main]
    prints no report and returns 0: its events are the read, the parse
    and the telemetry call. *)
Theorem scenario2_returns_zero args manifest f refs t :
  get_dbt_manifest args = inr manifest ->
  filenames args = [f] ->
  read_text f = inr "SELECT * FROM raw.orders" ->
  sqlfluff_parse ansi_config "SELECT * FROM raw.orders" = inr refs ->
  list_to_set refs = ({["raw.orders"]} : gset string) ->
  has_table_name "SELECT * FROM raw.orders" f
      (ignore_dotless_table args) default_dialect t =
    (inr (0, {["raw.orders"]}),
     t ++ [Parse ansi_config "SELECT * FROM raw.orders"])
  /\ main args t =
    (inr 0,
     t ++ [ReadText f; Parse ansi_config "SELECT * FROM raw.orders";
           TrackHookEvent "Hook Executed" 0 (is_test args)]).
Proof.
  intros Hm Hf Hr Hp Hset. split.
  - rewrite has_table_name_run. fold ansi_config. by rewrite Hp, Hset.
  - rewrite (main_run _ _ _ Hm), Hf. cbn [Runner.files_run].
    by rewrite Hr, Hp.
Qed.

(** C3 (amended).  A grammar parse failure on a file is not caught: it
    leaves [main] as an exception once the files listed before it have
    been checked.  The events of the run are those of the files before it
    and the read and the parse of the failing file: the files listed after
    it are neither read nor parsed, no telemetry event is sent, and [main]
    returns no status. *)
Theorem parse_failure_propagates args manifest before f after sql e t :
  get_dbt_manifest args = inr manifest ->
  filenames args = before ++ f :: after ->
  (forall g, g ∈ before -> is_Some (tables_of g)) ->
  read_text f = inr sql ->
  sqlfluff_parse ansi_config sql = inl e ->
  main args t =
    (inl e,
     t ++ (files_run before).2 ++ [ReadText f; Parse ansi_config sql]).
Proof.
  intros Hm Hf Hall Hr Hp.
  rewrite (main_run _ _ _ Hm), Hf, (files_run_app _ _ Hall).
  cbn [Runner.files_run]. by rewrite Hr, Hp.
Qed.

(** C4.  When the manifest cannot be loaded, [main] prints the cause and
    returns 1; that print is the only event of the run, so no file is
    read or parsed. *)
Theorem manifest_failure_returns_1 args cause t :
  get_dbt_manifest args = inl (JsonOpenError cause) ->
  main args t =
    (inr 1, t ++ [Print ["Unable to load manifest file (" +:+ cause +:+ ")"]]).
Proof. intros Hm. unfold Runner.main. by rewrite Hm. Qed.

(** The grammar is only asked from the loop. *)
Lemma main_parse args config sql :
  Parse config sql ∈ trace (main args []) ->
  Parse config sql ∈ (files_run (filenames args)).2.
Proof.
  destruct (get_dbt_manifest args) as [e|manifest] eqn:Hm.
  - unfold Runner.main. rewrite Hm.
    destruct e; run_monad; unfold trace; simpl; trace_solver.
  - rewrite (main_run _ _ _ Hm).
    destruct (files_run (filenames args)) as [[e|] evs];
      unfold trace; simpl; trace_solver.
Qed.

(** C8 (defect of the code, the claim stands).  The claim: the grammar is
    configured with the value of [--dialect].  The code: every request to
    the grammar in a run carries the dialect ["ansi"], whatever
    [dialect args] is, because [main] does not pass it to
    [has_table_name]. *)
Theorem grammar_dialect_is_ansi args config sql :
  Parse config sql ∈ trace (main args []) ->
  cfg_dialect config = "ansi".
Proof. intros H%main_parse. by apply files_run_parse in H as [-> _]. Qed.

(** A run prints no violation report, with or without the flag. *)
Lemma main_prints_no_report args f T :
  Print (violation_report f T) ∉ trace (main args []).
Proof.
  destruct (get_dbt_manifest args) as [e|manifest] eqn:Hm.
  - unfold Runner.main. rewrite Hm.
    destruct e; run_monad; unfold trace; simpl.
    + intros [[=]|?%elem_of_nil]%elem_of_cons; done.
    + by intros ?%elem_of_nil.
    + by intros ?%elem_of_nil.
  - rewrite (main_run _ _ _ Hm).
    pose proof (files_run_no_print (filenames args) (violation_report f T)).
    destruct (files_run (filenames args)) as [[e|] evs];
      unfold trace; simpl in *; trace_solver.
Qed.

(** [has_table_name] does not read [dotless]: with the flag it answers as
    without it, and a single-part name the grammar reports is in the set it
    returns. *)
Lemma has_table_name_keeps_dotless sql filename dialect refs n t :
  sqlfluff_parse {| cfg_dialect := dialect; cfg_templater := "dbt" |} sql
    = inr refs ->
  n ∈ refs -> dotless_name n = true ->
  has_table_name sql filename true dialect t
    = has_table_name sql filename false dialect t /\
  exists T,
    outcome (has_table_name sql filename true dialect t) = inr (0, T) /\
    n ∈ T.
Proof.
  intros Hp Hn _. split; [by rewrite !has_table_name_run|].
  exists (list_to_set refs). rewrite has_table_name_run, Hp.
  split; [done|]. by apply elem_of_list_to_set.
Qed.

(** C9.  With [--ignore-dotless-table], a single-part name [n] among the
    table references of a listed file is not reported as a violation: no
    report printed by the run lists [n], and the status [main] returns once
    the manifest is loaded is 0. *)
Theorem dotless_tables_not_reported args f T n :
  ignore_dotless_table args = true ->
  f ∈ filenames args -> tables_of f = Some T ->
  n ∈ T -> dotless_name n = true ->
  (forall g T', n ∈ T' ->
     Print (violation_report g T') ∉ trace (main args [])) /\
  (forall manifest status,
     get_dbt_manifest args = inr manifest ->
     outcome (main args []) = inr status -> status = 0).
Proof.
  intros _ _ _ _ _. split.
  - intros g T' _. apply main_prints_no_report.
  - intros manifest status Hm. rewrite (main_run _ _ _ Hm).
    destruct (files_run (filenames args)) as [[e|] evs]; [done|].
    by intros [= <-].
Qed.

(** C10.  When the grammar parses [sql], [has_table_name] returns status 0
    and the whole set of table references the grammar reports, whatever
    [dotless] is. *)
Theorem has_table_name_returns_all sql filename dotless dialect refs t :
  sqlfluff_parse {| cfg_dialect := dialect; cfg_templater := "dbt" |} sql
    = inr refs ->
  outcome (has_table_name sql filename dotless dialect t)
    = inr (0, list_to_set refs).
Proof. intros Hp. by rewrite has_table_name_run, Hp. Qed.

End RunnerFacts.

(* ===================================================================== *)
(** ** The runner on the sample project                                    *)
(* ===================================================================== *)

Section RunnerOnScenario.

Local Open Scope string_scope.
Local Open Scope list_scope.
Local Open Scope Z_scope.

Import Scenario.

Lemma scenario_tables_orders :
  tables_of "models/orders.sql" = Some {["raw.orders"]}.
Proof.
  unfold tables_of, Runner.tables_of. simpl. f_equal.
Qed.

Lemma scenario_files_parse files :
  files ⊆ ["models/orders.sql"; "models/one.sql"; "models/two.sql";
           "models/local.sql"] ->
  forall g, g ∈ files -> is_Some (tables_of g).
Proof.
  intros Hsub g Hg. apply Hsub in Hg.
  repeat (apply elem_of_cons in Hg as [->|Hg]; [by eexists|]).
  by apply elem_of_nil in Hg.
Qed.

(** Witness of C1: two readable, parsable files, the first with the table
    reference [raw.orders]; the run returns 0. *)
Lemma main_returns_zero_with_bare_tables_witness :
  tables_of "models/orders.sql" = Some {["raw.orders"]} /\
  outcome (run (args_of ["models/orders.sql"; "models/two.sql"])) = inr 0.
Proof.
  split; [exact scenario_tables_orders|].
  apply (main_returns_zero_with_bare_tables
           manifest_loaded read_text sqlfluff_parse red yellow
           (args_of ["models/orders.sql"; "models/two.sql"]) tt []
           "models/orders.sql" {["raw.orders"]}).
  - reflexivity.
  - apply scenario_files_parse. intros g Hg. simpl in Hg.
    repeat (apply elem_of_cons in Hg as [->|Hg];
            [repeat constructor|]).
    by apply elem_of_nil in Hg.
  - simpl. left.
  - exact scenario_tables_orders.
  - apply non_empty_singleton_L.
Defined.

(** Witness of C2. *)
Lemma scenario2_returns_zero_witness :
  has_table_name "SELECT * FROM raw.orders" "models/orders.sql" false
      default_dialect [] =
    (inr (0, {["raw.orders"]}),
     [Parse ansi_config "SELECT * FROM raw.orders"])
  /\ run (args_of ["models/orders.sql"]) =
    (inr 0,
     [ReadText "models/orders.sql";
      Parse ansi_config "SELECT * FROM raw.orders";
      TrackHookEvent "Hook Executed" 0 None]).
Proof.
  apply (scenario2_returns_zero
           manifest_loaded read_text sqlfluff_parse red yellow
           (args_of ["models/orders.sql"]) tt "models/orders.sql"
           ["raw.orders"] []).
  - reflexivity.
  - reflexivity.
  - reflexivity.
  - reflexivity.
  - reflexivity.
Defined.

(** C3, as stated, fails: of three files the second does not parse; the
    exception leaves [main], which returns no status, and the third file
    is never read. *)
Lemma parse_failure_aborts_batch :
  run (args_of ["models/two.sql"; "models/broken.sql"; "models/orders.sql"])
  = (inl (ParseError "unparsable section"),
     [ReadText "models/two.sql"; Parse ansi_config "SELECT 2";
      ReadText "models/broken.sql"; Parse ansi_config "SELECT (1"]).
Proof. reflexivity. Qed.

(** Witness of C3 (amended). *)
Lemma parse_failure_propagates_witness :
  run (args_of ["models/two.sql"; "models/broken.sql"; "models/orders.sql"])
  = (inl (ParseError "unparsable section"),
     [] ++ (files_run read_text sqlfluff_parse ["models/two.sql"]).2
        ++ [ReadText "models/broken.sql"; Parse ansi_config "SELECT (1"]).
Proof.
  apply (parse_failure_propagates
           manifest_loaded read_text sqlfluff_parse red yellow
           (args_of ["models/two.sql"; "models/broken.sql";
                     "models/orders.sql"])
           tt ["models/two.sql"] "models/broken.sql"
           ["models/orders.sql"] "SELECT (1"
           (ParseError "unparsable section") []).
  - reflexivity.
  - reflexivity.
  - intros g Hg. apply list_elem_of_singleton in Hg as ->. by eexists.
  - reflexivity.
  - reflexivity.
Defined.

(** Witness of C4. *)
Lemma manifest_failure_returns_1_witness :
  run_without_manifest (args_of ["models/orders.sql"]) =
    (inr 1,
     [] ++ [Print ["Unable to load manifest file (" +:+
                   "[Errno 2] No such file or directory: 'target/manifest.json'"
                   +:+ ")"]]).
Proof.
  apply (manifest_failure_returns_1
           manifest_missing read_text sqlfluff_parse red yellow
           (args_of ["models/orders.sql"])
           "[Errno 2] No such file or directory: 'target/manifest.json'" []).
  reflexivity.
Defined.

(** C7, as stated, fails: the script [SELECT 1 -- one] reaches the grammar
    with its comment; its normalized text, [SELECT 1], is never parsed. *)
Lemma grammar_input_not_normalized :
  normalize "SELECT 1 -- one" = "SELECT 1" /\
  trace (run (args_of ["models/one.sql"])) =
    [ReadText "models/one.sql"; Parse ansi_config "SELECT 1 -- one";
     TrackHookEvent "Hook Executed" 0 None] /\
  forall config,
    Parse config (normalize "SELECT 1 -- one")
      ∉ trace (run (args_of ["models/one.sql"])).
Proof.
  split; [reflexivity|]. split; [reflexivity|].
  intros config H. vm_compute in H.
  repeat (apply elem_of_cons in H as [H|H]; [discriminate|]).
  by apply elem_of_nil in H.
Qed.

(** Witness of C8: the run is asked for the dialect [snowflake] and
    parses with [ansi]. *)
Lemma grammar_dialect_is_ansi_witness :
  let args := {| filenames := ["models/two.sql"];
                 ignore_dotless_table := false;
                 dialect := "snowflake"; is_test := None |} in
  dialect args = "snowflake" /\
  trace (run args) =
    [ReadText "models/two.sql"; Parse ansi_config "SELECT 2";
     TrackHookEvent "Hook Executed" 0 None] /\
  cfg_dialect ansi_config = "ansi".
Proof.
  intros args. split; [reflexivity|]. split; [reflexivity|].
  apply (grammar_dialect_is_ansi
           manifest_loaded read_text sqlfluff_parse red yellow
           args ansi_config "SELECT 2").
  right. left.
Defined.

(** Witness of C9: with the flag, the single-part name [orders] of
    [models/local.sql] is in no printed report and the run returns 0. *)
Lemma dotless_tables_not_reported_witness :
  let args := {| filenames := ["models/local.sql"];
                 ignore_dotless_table := true;
                 dialect := "ansi"; is_test := None |} in
  tables_of "models/local.sql" = Some {["orders"]} /\
  dotless_name "orders" = true /\
  (forall g T', "orders" ∈ T' ->
     Print (violation_report red yellow g T') ∉ trace (run args)) /\
  (forall manifest status,
     manifest_loaded args = inr manifest ->
     outcome (run args) = inr status -> status = 0).
Proof.
  intros args. split; [reflexivity|]. split; [reflexivity|].
  apply (dotless_tables_not_reported
           manifest_loaded read_text sqlfluff_parse red yellow
           args "models/local.sql" {["orders"]} "orders").
  - reflexivity.
  - left.
  - reflexivity.
  - by apply elem_of_singleton.
  - reflexivity.
Defined.

(** Witness of C10. *)
Lemma has_table_name_returns_all_witness :
  outcome (has_table_name "SELECT * FROM orders" "models/local.sql" true
             "ansi" [])
    = inr (0, list_to_set ["orders"]).
Proof.
  apply (has_table_name_returns_all sqlfluff_parse
           "SELECT * FROM orders" "models/local.sql" true "ansi"
           ["orders"] []).
  reflexivity.
Defined.

End RunnerOnScenario.

(* ===================================================================== *)
(** ** More facts about the text helpers                                   *)
(* ===================================================================== *)

Section MoreTextFacts.

Implicit Types (l r : list ascii) (c x : ascii).
Implicit Types (k n : nat).

#[local] Arguments Ascii.eqb : simpl never.

Lemma chars_append (a b : string) : chars (a +:+ b) = chars a ++ chars b.
Proof. induction a as [|c a IH]; [done|]. simpl. by rewrite IH. Qed.

Lemma contains_tail sub c r :
  contains sub (c :: r) = false -> contains sub r = false.
Proof. rewrite contains_cons. by intros [_ ?]%orb_false_iff. Qed.

(** *** Texts the comment step leaves alone *)

Lemma stars_slash_contains r :
  stars_slash r = true -> contains ["*"; "/"] ("*" :: r) = true.
Proof.
  induction r as [|c r IH]; [done|]. cbn [stars_slash].
  destruct (Ascii.eqb_spec c "*") as [->|_].
  - intros H%IH. rewrite contains_cons, H. by rewrite orb_true_r.
  - intros ->%Ascii.eqb_eq. done.
Qed.

Lemma at_close_contains l :
  at_close l = true ->
  contains ["*"; "/"] l = true \/ contains ["#"; "}"] l = true.
Proof.
  destruct l as [|c r]; [done|]. cbn [at_close].
  destruct (Ascii.eqb_spec c "*") as [->|_].
  { left. by apply stars_slash_contains. }
  destruct (Ascii.eqb_spec c "#") as [->|_]; [|done].
  destruct r as [|d r]; [done|]. intros ->%Ascii.eqb_eq. by right.
Qed.

Lemma until_close_no_closer l :
  contains ["*"; "/"] l = false -> contains ["#"; "}"] l = false ->
  until_close l = None.
Proof.
  induction l as [|c r IH]; intros H1 H2; [done|].
  rewrite until_close_cons. destruct (at_close (c :: r)) eqn:E.
  { apply at_close_contains in E as [E|E]; congruence. }
  by rewrite IH by (by eapply contains_tail).
Qed.

Lemma comment_at_no_closer p2 p1 l :
  contains ["-"; "-"] l = false ->
  contains ["*"; "/"] l = false -> contains ["#"; "}"] l = false ->
  comment_at p2 p1 l = None.
Proof.
  intros Hd H1 H2.
  assert (dash_len l = None) as Hdash.
  { destruct (dash_len l) eqn:E; [|done].
    apply dash_len_contains in E. congruence. }
  unfold comment_at. destruct (after_open p2 p1); [|done].
  destruct l as [|c r]; [done|]. cbn [block_len].
  by rewrite until_close_no_closer by (by eapply contains_tail).
Qed.

Lemma sub_comments_no_closer l : forall p2 p1,
  contains ["-"; "-"] l = false ->
  contains ["*"; "/"] l = false -> contains ["#"; "}"] l = false ->
  sub_comments p2 p1 0 l = l.
Proof.
  induction l as [|c r IH]; intros p2 p1 Hd H1 H2; [done|].
  cbn [sub_comments]. rewrite comment_at_no_closer by done.
  f_equal. apply IH; by eapply contains_tail.
Qed.

Lemma calm_step p2 p1 c r : calm p2 p1 (c :: r) -> calm p1 (Some c) r.
Proof.
  intros (_ & H1 & H2). destruct p1 as [b|]; [|by repeat split].
  cbn [with_prev] in *. rewrite contains_cons in H1, H2.
  apply orb_false_iff in H1 as [S1 H1]. apply orb_false_iff in H2 as [S2 H2].
  repeat split; [|done|done].
  unfold after_open. apply not_true_is_false.
  intros [[Hb Hc]%andb_true_iff|[Hb Hc]%andb_true_iff]%orb_true_iff.
  - apply Ascii.eqb_eq in Hb as ->. apply Ascii.eqb_eq in Hc as ->.
    by vm_compute in S1.
  - apply Ascii.eqb_eq in Hb as ->. apply Ascii.eqb_eq in Hc as ->.
    by vm_compute in S2.
Qed.

Lemma calm_comment_at p2 p1 l :
  calm p2 p1 l -> comment_at p2 p1 l = dash_len l.
Proof. intros (H & _). unfold comment_at. by rewrite H. Qed.

(** The same at a position of a longer text: only the look-behind counts. *)
Lemma calm_comment_at' p2 p1 l l' :
  calm p2 p1 l -> comment_at p2 p1 l' = dash_len l'.
Proof. intros (H & _). unfold comment_at. by rewrite H. Qed.

Lemma sub_comments_calm l : forall p2 p1,
  calm p2 p1 l -> contains ["-"; "-"] l = false ->
  sub_comments p2 p1 0 l = l.
Proof.
  induction l as [|c r IH]; intros p2 p1 Hq Hd; [done|].
  cbn [sub_comments]. rewrite (calm_comment_at _ _ _ Hq).
  destruct (dash_len (c :: r)) as [n|] eqn:E.
  { apply dash_len_contains in E. congruence. }
  f_equal. apply IH; [by eapply calm_step|by eapply contains_tail].
Qed.

(** X1.  A text with no [--] that has no block-comment opener ([/*], [{#])
    or has no closer ([*/], [#}]) is left as it is by [replace_comments]. *)
Theorem replace_comments_unchanged s :
  str_contains "--" s = false ->
  (str_contains "/*" s = false /\ str_contains "{#" s = false) \/
  (str_contains "*/" s = false /\ str_contains "#}" s = false) ->
  replace_comments s = s.
Proof.
  unfold str_contains, replace_comments. intros Hd [[H1 H2]|[H1 H2]].
  - rewrite sub_comments_calm; [apply string_of_list_ascii_of_string| |done].
    by repeat split.
  - rewrite sub_comments_no_closer by done.
    apply string_of_list_ascii_of_string.
Qed.

(** *** Skipping *)

Lemma sub_comments_skip_all l : forall p2 p1 k,
  length l <= k -> sub_comments p2 p1 k l = [].
Proof.
  induction l as [|c r IH]; intros p2 p1 k Hk; [done|].
  destruct k as [|k]; simpl in Hk; [lia|].
  cbn [sub_comments]. apply IH. lia.
Qed.

Lemma sub_comments_skip_app a : forall l p2 p1,
  exists q2 q1,
    sub_comments p2 p1 (length a) (a ++ l) = sub_comments q2 q1 0 l.
Proof.
  induction a as [|c a IH]; intros l p2 p1; [by eexists _, _|].
  cbn [length app sub_comments]. apply IH.
Qed.

(** *** The body of a block comment *)

Lemma at_close_body c r : no_star_hash c = true -> at_close (c :: r) = false.
Proof.
  unfold no_star_hash. cbn [at_close].
  destruct (Ascii.eqb c "*"); [done|]. by destruct (Ascii.eqb c "#").
Qed.

Lemma until_close_body body tail :
  forallb no_star_hash body = true -> at_close tail = true ->
  until_close (body ++ tail) = Some (length body).
Proof.
  intros Hb Ht. induction body as [|c body IH].
  - destruct tail as [|d tail]; [done|]. simpl app.
    rewrite until_close_cons. by rewrite Ht.
  - cbn [forallb] in Hb. apply andb_true_iff in Hb as [Hc Hb].
    cbn [app]. rewrite until_close_cons, at_close_body by done.
    by rewrite IH.
Qed.

Lemma sub_comments_closer q2 q1 (closer : list ascii) :
  closer = ["*"; "/"] \/ closer = ["#"; "}"] ->
  sub_comments q2 q1 0 closer = closer.
Proof.
  intros [-> | ->]; cbn [sub_comments]; unfold comment_at.
  - destruct (after_open q2 q1); cbn;
      by destruct (after_open q1 (Some "*")).
  - destruct (after_open q2 q1); cbn;
      by destruct (after_open q1 (Some "#")).
Qed.

Lemma sub_comments_keep p2 p1 c r :
  comment_at p2 p1 (c :: r) = None ->
  sub_comments p2 p1 0 (c :: r) = c :: sub_comments p1 (Some c) 0 r.
Proof. intros H. cbn [sub_comments]. by rewrite H. Qed.

Lemma sub_comments_block (opener closer body : list ascii) :
  opener = ["/"; "*"] \/ opener = ["{"; "#"] ->
  closer = ["*"; "/"] \/ closer = ["#"; "}"] ->
  body <> [] -> forallb no_star_hash body = true ->
  sub_comments None None 0 (opener ++ body ++ closer) = opener ++ closer.
Proof.
  intros Ho Hc Hne Hb. destruct body as [|c body]; [done|].
  assert (at_close closer = true) as Hclose by (by destruct Hc as [-> | ->]).
  cbn [forallb] in Hb. apply andb_true_iff in Hb as [_ Hb].
  assert (forall p2 p1,
    after_open p2 p1 = true ->
    sub_comments p2 p1 0 (c :: body ++ closer) = closer) as Hbody.
  { intros p2 p1 Hopen. cbn [sub_comments]. unfold comment_at.
    rewrite Hopen. cbn [block_len].
    rewrite until_close_body by done. cbn [fmap option_fmap option_map].
    destruct (sub_comments_skip_app body closer p1 (Some c)) as (q2 & q1 & ->).
    by apply sub_comments_closer. }
  destruct Ho as [-> | ->]; cbn [app].
  - rewrite (sub_comments_keep None None) by reflexivity.
    rewrite (sub_comments_keep None (Some "/")) by reflexivity.
    by rewrite Hbody.
  - rewrite (sub_comments_keep None None) by reflexivity.
    rewrite (sub_comments_keep None (Some "{")) by reflexivity.
    by rewrite Hbody.
Qed.

(** X2.  A block comment with a non-empty body that holds no star and no
    hash is reduced to its two delimiters; the pairs can be mixed ([/*]
    closed by [#}], [{#] closed by [*/]). *)
Theorem replace_comments_block_body (opener body closer : string) :
  opener = "/*"%string \/ opener = "{#"%string ->
  closer = "*/"%string \/ closer = "#}"%string ->
  body <> ""%string ->
  forallb no_star_hash (chars body) = true ->
  replace_comments (opener +:+ body +:+ closer) = opener +:+ closer.
Proof.
  intros Ho Hc Hne Hb. unfold replace_comments.
  rewrite !chars_append, sub_comments_block; try done.
  - by rewrite <- chars_append, string_of_list_ascii_of_string.
  - by destruct Ho as [-> | ->]; [left|right].
  - by destruct Hc as [-> | ->]; [left|right].
  - by destruct body.
Qed.

(** *** Line feeds *)

Lemma line_feeds_cons c l :
  line_feeds (c :: l) = (if is_newline c then 1 else 0) + line_feeds l.
Proof. unfold line_feeds. simpl. by destruct (is_newline c). Qed.

Lemma line_feeds_split k l :
  line_feeds l = line_feeds (take k l) + line_feeds (drop k l).
Proof.
  unfold line_feeds. rewrite <- (take_drop k l) at 1.
  by rewrite List.filter_app, length_app.
Qed.

Lemma line_rest_no_feed l : line_feeds (take (line_rest l) l) = 0.
Proof.
  induction l as [|c r IH]; [done|]. cbn [line_rest].
  destruct (is_newline c) eqn:E; [done|].
  cbn [take]. by rewrite line_feeds_cons, E, IH.
Qed.

Lemma is_blank_not_newline c : is_blank c = true -> is_newline c = false.
Proof.
  unfold is_blank, is_newline.
  intros [->%Ascii.eqb_eq| ->%Ascii.eqb_eq]%orb_true_iff; reflexivity.
Qed.

Lemma dash_len_no_feed l n :
  dash_len l = Some n -> line_feeds (take n l) = 0.
Proof.
  revert n. induction l as [|c r IH]; intros n; [done|]. cbn [dash_len].
  destruct (is_blank c) eqn:Eb.
  - destruct (dash_len r) as [m|] eqn:E; [|done]. intros [= <-].
    cbn [take]. by rewrite line_feeds_cons, is_blank_not_newline, (IH m).
  - destruct (Ascii.eqb_spec c "-") as [->|]; [|done].
    destruct r as [|d r']; [done|].
    destruct (Ascii.eqb_spec d "-") as [->|]; [|done].
    intros [= <-]. cbn [take Nat.add].
    rewrite !line_feeds_cons. cbn -[line_feeds take].
    apply line_rest_no_feed.
Qed.

Lemma sub_comments_line_feeds l : forall p2 p1 k,
  calm p2 p1 l -> line_feeds (take k l) = 0 ->
  line_feeds (sub_comments p2 p1 k l) = line_feeds (drop k l).
Proof.
  induction l as [|c r IH]; intros p2 p1 k Hq Hk; [by destruct k|].
  pose proof (calm_step _ _ _ _ Hq) as Hq'. cbn [sub_comments].
  destruct k as [|k]; simpl (drop _ _).
  - rewrite (calm_comment_at _ _ _ Hq).
    destruct (dash_len (c :: r)) as [[|j]|] eqn:E.
    + rewrite !line_feeds_cons. by rewrite (IH _ _ 0).
    + apply dash_len_no_feed in E. simpl (take _ _) in E.
      rewrite line_feeds_cons in E.
      rewrite (IH _ _ j) by (done || lia).
      rewrite line_feeds_cons, (line_feeds_split j r). lia.
    + rewrite !line_feeds_cons. by rewrite (IH _ _ 0).
  - simpl (take _ _) in Hk. rewrite line_feeds_cons in Hk.
    apply IH; [done|lia].
Qed.

(** X3.  On a text without block-comment opener ([/*], [{#]),
    [replace_comments] keeps every line feed: the lines of the output are
    the lines of the input, each without its line comment. *)
Theorem replace_comments_keeps_line_feeds s :
  str_contains "/*" s = false -> str_contains "{#" s = false ->
  line_feeds (chars (replace_comments s)) = line_feeds (chars s).
Proof.
  unfold str_contains, replace_comments. intros H1 H2.
  rewrite list_ascii_of_string_of_list_ascii.
  by rewrite sub_comments_line_feeds by (done || by repeat split).
Qed.

(** *** A comment at the end of a line *)

Lemma dash_len_code code tail :
  code <> [] ->
  forallb (fun x => negb (Ascii.eqb x "-")) code = true ->
  (forall x, last code = Some x -> is_blank x = false) ->
  dash_len (code ++ tail) = None.
Proof.
  induction code as [|x code IH]; [done|]. intros _ Hd Hl.
  cbn [forallb] in Hd. apply andb_true_iff in Hd as [Hx Hd].
  cbn [app dash_len]. destruct (is_blank x) eqn:Eb.
  - destruct code as [|y code].
    { specialize (Hl x eq_refl). congruence. }
    by rewrite IH.
  - by destruct (Ascii.eqb x "-").
Qed.

Lemma line_rest_all cm :
  forallb (fun x => negb (is_newline x)) cm = true -> line_rest cm = length cm.
Proof.
  induction cm as [|x cm IH]; [done|]. cbn [forallb line_rest length].
  intros [Hx Hc]%andb_true_iff. destruct (is_newline x); [done|].
  by rewrite IH.
Qed.

Lemma dash_len_tail bl cm :
  forallb is_blank bl = true ->
  forallb (fun x => negb (is_newline x)) cm = true ->
  dash_len (bl ++ "-" :: "-" :: cm) = Some (length bl + 2 + length cm).
Proof.
  intros Hb Hc. induction bl as [|x bl IH].
  - cbn [app]. change (dash_len ("-" :: "-" :: cm))
      with (Some (2 + line_rest cm)). by rewrite line_rest_all.
  - cbn [forallb] in Hb. apply andb_true_iff in Hb as [Hx Hb].
    cbn [app dash_len]. by rewrite Hx, IH.
Qed.

Lemma sub_comments_trailing code : forall p2 p1 bl cm,
  calm p2 p1 code ->
  forallb (fun x => negb (Ascii.eqb x "-")) code = true ->
  (forall x, last code = Some x -> is_blank x = false) ->
  forallb is_blank bl = true ->
  forallb (fun x => negb (is_newline x)) cm = true ->
  sub_comments p2 p1 0 (code ++ bl ++ "-" :: "-" :: cm) = code.
Proof.
  induction code as [|x code IH]; intros p2 p1 bl cm Hq Hd Hl Hb Hc.
  - cbn [app]. pose proof (dash_len_tail bl cm Hb Hc) as Hlen.
    destruct (bl ++ "-" :: "-" :: cm) as [|t0 tail] eqn:Et.
    { by destruct bl. }
    assert (length (t0 :: tail) = length bl + 2 + length cm) as Hn.
    { rewrite <- Et, length_app. simpl. lia. }
    cbn [sub_comments]. unfold comment_at.
    destruct Hq as (-> & _). rewrite Hlen.
    replace (length bl + 2 + length cm) with (S (length bl + 1 + length cm))
      by lia.
    apply sub_comments_skip_all. simpl in Hn. lia.
  - pose proof (calm_step _ _ _ _ Hq) as Hq'.
    cbn [forallb] in Hd. pose proof Hd as [Hx Hd']%andb_true_iff.
    rewrite <- app_comm_cons, sub_comments_keep.
    + f_equal. apply IH; try done.
      intros y Hy. apply Hl. by destruct code.
    + rewrite (calm_comment_at' p2 p1 (x :: code)) by done.
      by apply (dash_len_code (x :: code)).
Qed.

(** X4.  A line comment at the end of a text is removed together with the
    blanks before it: when [code] has no dash and no block-comment opener
    and does not end in a blank, [code], blanks, [--] and a comment without
    line feed give [code]. *)
Theorem replace_comments_trailing_comment (code blanks comment : string) :
  forallb (fun x => negb (Ascii.eqb x "-")) (chars code) = true ->
  str_contains "/*" code = false -> str_contains "{#" code = false ->
  (forall x, last (chars code) = Some x -> is_blank x = false) ->
  forallb is_blank (chars blanks) = true ->
  forallb (fun x => negb (is_newline x)) (chars comment) = true ->
  replace_comments (code +:+ blanks +:+ "--" +:+ comment) = code.
Proof.
  intros Hd H1 H2 Hl Hb Hc. unfold replace_comments.
  rewrite !chars_append. change (chars "--") with ["-"; "-"]. cbn [app].
  rewrite sub_comments_trailing by (done || by repeat split).
  apply string_of_list_ascii_of_string.
Qed.

(** *** Padding *)

Lemma pad_class_cons cls c r :
  pad_class cls (c :: r) =
    (if cls c then [" "; c; " "] else [c]) ++ pad_class cls r.
Proof. reflexivity. Qed.

Lemma pad_class_app cls l r :
  pad_class cls (l ++ r) = pad_class cls l ++ pad_class cls r.
Proof.
  induction l as [|c l IH]; [done|].
  by rewrite <- app_comm_cons, !pad_class_cons, IH, app_assoc.
Qed.

Lemma spaceless_cons c l :
  spaceless (c :: l) =
    if Ascii.eqb c " " then spaceless l else c :: spaceless l.
Proof. unfold spaceless. simpl. by destruct (Ascii.eqb c " "). Qed.

Lemma spaceless_app l r : spaceless (l ++ r) = spaceless l ++ spaceless r.
Proof. apply List.filter_app. Qed.

Lemma pad_class_spaceless cls l :
  cls " " = false -> spaceless (pad_class cls l) = spaceless l.
Proof.
  intros Hsp. induction l as [|c l IH]; [done|].
  rewrite pad_class_cons, spaceless_app, IH, (spaceless_cons c l).
  destruct (cls c) eqn:E.
  - destruct (Ascii.eqb_spec c " ") as [->|Hc]; [congruence|].
    rewrite !spaceless_cons. apply Ascii.eqb_neq in Hc. by rewrite Hc.
  - rewrite spaceless_cons. by destruct (Ascii.eqb c " ").
Qed.

Lemma pad_class_sublist cls l : sublist l (pad_class cls l).
Proof.
  induction l as [|c l IH]; [done|]. rewrite pad_class_cons.
  destruct (cls c); cbn [app].
  - apply sublist_cons, sublist_skip, sublist_cons, IH.
  - by apply sublist_skip.
Qed.

(** X5.  [add_space_to_parenthesis] and [add_space_to_braces] only insert
    spaces: the input is a subsequence of the output, and without their
    spaces the two are the same text. *)
Theorem padding_only_inserts_spaces s :
  (sublist (chars s) (chars (add_space_to_parenthesis s)) /\
   spaceless (chars (add_space_to_parenthesis s)) = spaceless (chars s)) /\
  (sublist (chars s) (chars (add_space_to_braces s)) /\
   spaceless (chars (add_space_to_braces s)) = spaceless (chars s)).
Proof.
  unfold add_space_to_parenthesis, add_space_to_braces.
  rewrite !list_ascii_of_string_of_list_ascii.
  repeat split; (apply pad_class_sublist || by apply pad_class_spaceless).
Qed.

Lemma pad_class_length cls l :
  length (pad_class cls l) = length l + 2 * count_class cls l.
Proof.
  unfold count_class. induction l as [|c l IH]; [done|].
  rewrite pad_class_cons, length_app, IH. simpl.
  destruct (cls c); simpl; lia.
Qed.

(** X6.  The padded text is longer by two characters for every parenthesis
    (for every brace). *)
Theorem padding_length s :
  length (chars (add_space_to_parenthesis s)) =
    length (chars s) + 2 * count_class is_parenthesis (chars s) /\
  length (chars (add_space_to_braces s)) =
    length (chars s) + 2 * count_class is_brace (chars s).
Proof.
  unfold add_space_to_parenthesis, add_space_to_braces.
  rewrite !list_ascii_of_string_of_list_ascii.
  split; apply pad_class_length.
Qed.

Lemma pad_class_padded cls l : cls " " = false -> forall i c,
  pad_class cls l !! i = Some c -> cls c = true ->
  exists j, i = S j /\
    pad_class cls l !! j = Some " " /\ pad_class cls l !! S i = Some " ".
Proof.
  intros Hsp. induction l as [|x l IH]; intros i c Hi Hc; [done|].
  rewrite pad_class_cons in *. destruct (cls x) eqn:Ex; cbn [app] in *.
  - destruct i as [|[|[|i]]]; simpl in Hi.
    + congruence.
    + by exists 0.
    + congruence.
    + destruct (IH i c Hi Hc) as (j & -> & Hj & Hn).
      exists (S (S (S j))). by repeat split.
  - destruct i as [|i]; simpl in Hi; [congruence|].
    destruct (IH i c Hi Hc) as (j & -> & Hj & Hn).
    exists (S j). by repeat split.
Qed.

(** X7.  In the output of [add_space_to_parenthesis] every parenthesis
    stands between two spaces. *)
Theorem parenthesis_between_spaces s i c :
  chars (add_space_to_parenthesis s) !! i = Some c ->
  is_parenthesis c = true ->
  exists j, i = S j /\
    chars (add_space_to_parenthesis s) !! j = Some " " /\
    chars (add_space_to_parenthesis s) !! S i = Some " ".
Proof.
  unfold add_space_to_parenthesis.
  rewrite !list_ascii_of_string_of_list_ascii. by apply pad_class_padded.
Qed.

(** X8.  In the output of [add_space_to_braces] every brace stands between
    two spaces. *)
Theorem brace_between_spaces s i c :
  chars (add_space_to_braces s) !! i = Some c ->
  is_brace c = true ->
  exists j, i = S j /\
    chars (add_space_to_braces s) !! j = Some " " /\
    chars (add_space_to_braces s) !! S i = Some " ".
Proof.
  unfold add_space_to_braces.
  rewrite !list_ascii_of_string_of_list_ascii. by apply pad_class_padded.
Qed.

Lemma pad_class_commute (p q : ascii -> bool) l :
  p " " = false -> q " " = false ->
  (forall c, p c = true -> q c = false) ->
  pad_class p (pad_class q l) = pad_class q (pad_class p l).
Proof.
  intros Hp Hq Hpq. induction l as [|c l IH]; [done|].
  rewrite !pad_class_cons, !pad_class_app, IH. f_equal.
  destruct (p c) eqn:Ep, (q c) eqn:Eq.
  - rewrite (Hpq c Ep) in Eq. done.
  - rewrite !pad_class_cons, Hq, Ep, (Hpq c Ep). done.
  - rewrite !pad_class_cons, Hp, Ep, Eq. done.
  - by rewrite !pad_class_cons, Ep, Eq.
Qed.

(** X9.  The two padding steps commute. *)
Theorem padding_commutes s :
  add_space_to_parenthesis (add_space_to_braces s) =
  add_space_to_braces (add_space_to_parenthesis s).
Proof.
  unfold add_space_to_parenthesis, add_space_to_braces.
  rewrite !list_ascii_of_string_of_list_ascii. f_equal.
  apply pad_class_commute; try done.
  intros c. unfold is_parenthesis, is_brace.
  intros [->%Ascii.eqb_eq| ->%Ascii.eqb_eq]%orb_true_iff; reflexivity.
Qed.

(** *** Template delimiters *)

Lemma starts_with_split old l :
  starts_with old l = true -> l = old ++ drop (length old) l.
Proof.
  revert l. induction old as [|a old IH]; intros l; [done|].
  destruct l as [|b l]; [done|]. cbn [starts_with].
  intros [->%Ascii.eqb_eq H]%andb_true_iff. simpl. f_equal. by apply IH.
Qed.

Lemma str_replace_spaceless a old new :
  spaceless new = spaceless (a :: old) -> forall l k,
  spaceless (str_replace (a :: old) new k l) = spaceless (drop k l).
Proof.
  intros Hnew. induction l as [|c r IH]; intros k; [by destruct k|].
  cbn [str_replace]. destruct k as [|k]; [|apply IH]. simpl (drop _ _).
  destruct (starts_with (a :: old) (c :: r)) eqn:E.
  - apply starts_with_split in E. simpl in E. rewrite E.
    change (a :: old ++ drop (length old) r)
      with ((a :: old) ++ drop (length old) r).
    rewrite !spaceless_app, IH, Hnew. simpl. by rewrite Nat.sub_0_r.
  - by rewrite !spaceless_cons, (IH 0).
Qed.

Lemma str_replace_sublist a old new :
  sublist (a :: old) new -> forall l k,
  sublist (drop k l) (str_replace (a :: old) new k l).
Proof.
  intros Hnew. induction l as [|c r IH]; intros k; [by destruct k|].
  cbn [str_replace]. destruct k as [|k]; [|apply IH]. simpl (drop _ _).
  destruct (starts_with (a :: old) (c :: r)) eqn:E.
  - apply starts_with_split in E. simpl in E. rewrite E.
    change (a :: old ++ drop (length old) r)
      with ((a :: old) ++ drop (length old) r).
    apply sublist_app; [done|]. simpl. rewrite Nat.sub_0_r. apply IH.
  - apply sublist_skip, (IH 0).
Qed.

(** X10.  [add_space_to_source_ref] only inserts spaces: the input is a
    subsequence of the output, and without their spaces the two are the
    same text. *)
Theorem source_ref_only_inserts_spaces s :
  sublist (chars s) (chars (add_space_to_source_ref s)) /\
  spaceless (chars (add_space_to_source_ref s)) = spaceless (chars s).
Proof.
  unfold add_space_to_source_ref.
  rewrite list_ascii_of_string_of_list_ascii.
  change (chars "{{") with ["{"; "{"]. change (chars "}}") with ["}"; "}"].
  change (chars "{{ ") with ["{"; "{"; " "].
  change (chars " }}") with [" "; "}"; "}"]. split.
  - assert (sublist ["{"; "{"] ["{"; "{"; " "]) as Hopen
      by (do 2 apply sublist_skip; apply sublist_nil_l).
    assert (sublist ["}"; "}"] [" "; "}"; "}"]) as Hclose
      by (by apply sublist_cons).
    etrans; [exact (str_replace_sublist _ _ _ Hopen (chars s) 0)|].
    exact (str_replace_sublist _ _ _ Hclose _ 0).
  - rewrite (str_replace_spaceless "}" ["}"] [" "; "}"; "}"] eq_refl _ 0).
    exact (str_replace_spaceless "{" ["{"] ["{"; "{"; " "] eq_refl _ 0).
Qed.

Lemma str_replace_id_contains old new l :
  contains old l = false -> str_replace old new 0 l = l.
Proof.
  induction l as [|c r IH]; [done|]. rewrite contains_cons.
  intros [E H]%orb_false_iff. cbn [str_replace]. by rewrite E, IH.
Qed.

(** X11.  A text without [{{] and without [}}] is left as it is by
    [add_space_to_source_ref]. *)
Theorem source_ref_unchanged s :
  str_contains "{{" s = false -> str_contains "}}" s = false ->
  add_space_to_source_ref s = s.
Proof.
  unfold str_contains, add_space_to_source_ref. intros H1 H2.
  rewrite (str_replace_id_contains (chars "{{")) by done.
  rewrite (str_replace_id_contains (chars "}}")) by done.
  apply string_of_list_ascii_of_string.
Qed.

Lemma pad_class_no_pair cls a b l :
  cls a = true -> Ascii.eqb a " " = false -> Ascii.eqb b " " = false ->
  contains [a; b] (pad_class cls l) = false.
Proof.
  intros Ha Hsa Hsb. induction l as [|c l IH]; [done|].
  rewrite pad_class_cons. destruct (cls c) eqn:Ec; cbn [app].
  - rewrite !contains_cons, IH. cbn [starts_with].
    by rewrite Hsa, Hsb, !andb_false_r.
  - rewrite contains_cons, IH. cbn [starts_with].
    destruct (Ascii.eqb_spec a c) as [->|]; [congruence|done].
Qed.

(** X12.  After [add_space_to_braces] there is no [{{] and no [}}] left:
    [add_space_to_source_ref] changes nothing in a text whose braces are
    padded. *)
Theorem source_ref_after_braces s :
  add_space_to_source_ref (add_space_to_braces s) = add_space_to_braces s.
Proof.
  apply source_ref_unchanged; unfold str_contains, add_space_to_braces;
    rewrite list_ascii_of_string_of_list_ascii;
    by apply pad_class_no_pair.
Qed.

(** *** Every opening delimiter gets its space *)

Lemma str_replace_hit a b new c r :
  starts_with [a; b] (c :: r) = true ->
  exists r', c = a /\ r = b :: r' /\
    str_replace [a; b] new 0 (c :: r) = new ++ str_replace [a; b] new 0 r'.
Proof.
  intros H. destruct (starts_with_pair _ _ _ H) as (r' & [= -> ->]).
  exists r'. repeat split. cbn [str_replace]. by rewrite H.
Qed.

Lemma str_replace_miss old new c r :
  starts_with old (c :: r) = false ->
  str_replace old new 0 (c :: r) = c :: str_replace old new 0 r.
Proof. intros H. cbn [str_replace]. by rewrite H. Qed.

Lemma opens_padded_cons c l :
  opens_padded (c :: l) <->
  (c = "{" -> l !! 0 = Some "{" -> l !! 1 = Some " ") /\ opens_padded l.
Proof.
  unfold opens_padded. split.
  - intros H. split.
    + intros -> H0. by apply (H 0).
    + intros i. apply (H (S i)).
  - intros [H0 H] [|i]; simpl.
    + intros [= ->]. by apply H0.
    + apply H.
Qed.

Lemma opens_padded_nil : opens_padded [].
Proof. by intros i. Qed.

Lemma str_replace_open_padded n : forall l,
  length l <= n ->
  opens_padded (str_replace ["{"; "{"] ["{"; "{"; " "] 0 l).
Proof.
  induction n as [|n IH]; intros l Hn.
  { destruct l; [apply opens_padded_nil|simpl in Hn; lia]. }
  destruct l as [|c r]; [apply opens_padded_nil|]. simpl in Hn.
  destruct (starts_with ["{"; "{"] (c :: r)) eqn:E.
  - destruct (str_replace_hit _ _ ["{"; "{"; " "] _ _ E)
      as (r' & -> & -> & ->). cbn [app].
    rewrite !opens_padded_cons. repeat split; try done.
    apply IH. simpl in Hn. lia.
  - rewrite str_replace_miss by done. rewrite opens_padded_cons. split.
    + intros -> H0. destruct r as [|d r]; [done|].
      destruct (starts_with ["{"; "{"] (d :: r)) eqn:E'.
      * by destruct (str_replace_hit _ _ ["{"; "{"; " "] _ _ E')
          as (r' & -> & -> & _).
      * rewrite str_replace_miss in H0 by done. by injection H0 as ->.
    + apply IH. lia.
Qed.

Lemma str_replace_close_padded n : forall l,
  length l <= n -> opens_padded l ->
  opens_padded (str_replace ["}"; "}"] [" "; "}"; "}"] 0 l).
Proof.
  induction n as [|n IH]; intros l Hn Hl.
  { destruct l; [apply opens_padded_nil|simpl in Hn; lia]. }
  destruct l as [|c r]; [apply opens_padded_nil|]. simpl in Hn.
  apply opens_padded_cons in Hl as [H0 Hr].
  destruct (starts_with ["}"; "}"] (c :: r)) eqn:E.
  - destruct (str_replace_hit _ _ [" "; "}"; "}"] _ _ E)
      as (r' & -> & -> & ->). cbn [app].
    apply opens_padded_cons in Hr as [_ Hr'].
    rewrite !opens_padded_cons. repeat split; try done.
    apply IH; [simpl in Hn; lia|done].
  - rewrite str_replace_miss by done. rewrite opens_padded_cons. split.
    + intros -> Hd. destruct r as [|d r]; [done|].
      destruct (starts_with ["}"; "}"] (d :: r)) eqn:E'.
      { by destruct (str_replace_hit _ _ [" "; "}"; "}"] _ _ E')
          as (r' & -> & -> & ->). }
      rewrite str_replace_miss in Hd |- * by done. injection Hd as ->.
      specialize (H0 eq_refl eq_refl). destruct r as [|x r]; [done|].
      injection H0 as ->. by rewrite str_replace_miss.
    + apply IH; [lia|done].
Qed.

(** X13.  In the output of [add_space_to_source_ref] every [{{] is
    followed by a space. *)
Theorem source_ref_open_padded s :
  opens_padded (chars (add_space_to_source_ref s)).
Proof.
  unfold add_space_to_source_ref.
  rewrite list_ascii_of_string_of_list_ascii.
  eapply str_replace_close_padded; [done|].
  by eapply (str_replace_open_padded _ (chars s)).
Qed.

End MoreTextFacts.

(* ===================================================================== *)
(** ** Facts about the word iterator                                       *)
(* ===================================================================== *)

Section WordsFacts.

Variable lower : string -> string.

Lemma iter_from_length rest : forall prev cur,
  length (iter_from lower prev cur rest) = S (length rest).
Proof.
  induction rest as [|w rest IH]; intros prev cur; [done|].
  cbn [iter_from length]. by rewrite IH.
Qed.

Lemma iter_from_lookup rest : forall prev cur i,
  iter_from lower prev cur rest !! i =
    (fun w => (match i with
               | 0 => prev
               | S j => (cur :: (lower <$> rest)) !! j
               end,
               w, (cur :: (lower <$> rest)) !! S i))
      <$> ((cur :: (lower <$> rest)) !! i).
Proof.
  induction rest as [|w rest IH]; intros prev cur i.
  - destruct i as [|i]; [done|]. by destruct i.
  - cbn [iter_from]. destruct i as [|i]; [done|].
    change ((?x :: ?l) !! S i) with (l !! i). rewrite IH.
    by destruct i.
Qed.

(** X14.  [prev_cur_next_iter] raises on the empty sequence.  On any other
    it yields one triple for every word, in order: the lower-cased word,
    between the lower-cased word before it and the one after it, with
    [None] before the first and after the last. *)
Theorem prev_cur_next_iter_triples sql :
  match prev_cur_next_iter lower sql with
  | None => sql = []
  | Some out =>
      sql <> [] /\ length out = length sql /\
      forall i,
        out !! i =
          (fun w => (match i with
                     | 0 => None
                     | S j => (lower <$> sql) !! j
                     end,
                     w, (lower <$> sql) !! S i))
            <$> ((lower <$> sql) !! i)
  end.
Proof.
  destruct sql as [|w rest]; [done|]. cbn [prev_cur_next_iter].
  split; [done|]. split; [apply iter_from_length|].
  intros i. apply iter_from_lookup.
Qed.

End WordsFacts.

(* ===================================================================== *)
(** ** More facts about the runner                                         *)
(* ===================================================================== *)

Section MoreRunnerFacts.

Local Open Scope string_scope.
Local Open Scope list_scope.
Local Open Scope Z_scope.

Context {Manifest : Type}.
Variable get_dbt_manifest : Namespace -> exn + Manifest.
Variable read_text : string -> exn + string.
Variable sqlfluff_parse : FluffConfig -> string -> exn + list string.
Variables red yellow : string -> string.

Local Abbreviation main :=
  (main get_dbt_manifest read_text sqlfluff_parse red yellow).
Local Abbreviation files_run := (files_run read_text sqlfluff_parse).
Local Abbreviation tables_of := (tables_of read_text sqlfluff_parse).

(** The three ways a run ends. *)
Lemma main_cases args t :
  (exists cause,
     get_dbt_manifest args = inl (JsonOpenError cause) /\
     main args t =
       (inr 1,
        t ++ [Print ["Unable to load manifest file (" +:+ cause +:+ ")"]]))
  \/ (exists e,
        get_dbt_manifest args = inl e /\
        (forall cause, e <> JsonOpenError cause) /\
        main args t = (inl e, t))
  \/ (exists manifest,
        get_dbt_manifest args = inr manifest /\
        main args t =
          match (files_run (filenames args)).1 with
          | Some e => (inl e, t ++ (files_run (filenames args)).2)
          | None =>
              (inr 0,
               t ++ (files_run (filenames args)).2
                 ++ [TrackHookEvent "Hook Executed" 0 (is_test args)])
          end).
Proof.
  destruct (get_dbt_manifest args) as [e|manifest] eqn:Hm.
  - destruct e as [cause| |].
    + left. exists cause. split; [done|]. unfold Runner.main. by rewrite Hm.
    + right. left. eexists. split; [done|]. split; [done|].
      unfold Runner.main. by rewrite Hm.
    + right. left. eexists. split; [done|]. split; [done|].
      unfold Runner.main. by rewrite Hm.
  - right. right. exists manifest. split; [done|]. by eapply main_run.
Qed.

Lemma reads_app t u : reads (t ++ u) = reads t ++ reads u.
Proof. apply bind_app. Qed.

Lemma parses_app t u : parses (t ++ u) = parses t ++ parses u.
Proof. apply bind_app. Qed.

Lemma telemetry_app t u : telemetry (t ++ u) = telemetry t ++ telemetry u.
Proof. apply bind_app. Qed.

(** What the loop leaves in the trace. *)
Lemma files_run_measures todo :
  reads (files_run todo).2 `prefix_of` todo /\
  (length (parses (files_run todo).2) <= length (reads (files_run todo).2))%nat
  /\ telemetry (files_run todo).2 = [] /\
  ((files_run todo).1 = None ->
   reads (files_run todo).2 = todo /\
   length (parses (files_run todo).2) = length todo).
Proof.
  induction todo as [|f todo IH]; cbn [Runner.files_run].
  - repeat split; done.
  - destruct IH as (Hpre & Hle & Htel & Hall).
    destruct (read_text f) as [e|sql].
    { repeat split; try done; simpl; [by apply prefix_cons, prefix_nil|lia]. }
    destruct (sqlfluff_parse ansi_config sql) as [e|refs].
    { repeat split; try done; simpl; by apply prefix_cons, prefix_nil. }
    destruct (files_run todo) as [o evs].
    change (reads (ReadText f :: Parse ansi_config sql :: evs))
      with (f :: reads evs).
    change (parses (ReadText f :: Parse ansi_config sql :: evs))
      with (sql :: parses evs).
    change (telemetry (ReadText f :: Parse ansi_config sql :: evs))
      with (telemetry evs).
    simpl in *. repeat split.
    + by apply prefix_cons.
    + lia.
    + done.
    + destruct (Hall H) as [-> _]. done.
    + destruct (Hall H) as [_ ->]. done.
Qed.

(** X15.  [main] returns 1 exactly when the manifest loader raises
    [JsonOpenError], and returns 0 exactly when the manifest loads and every
    file is read and parsed: no other status is returned. *)
Theorem main_status_codes args t status :
  outcome (main args t) = inr status ->
  (status = 1 /\
   exists cause, get_dbt_manifest args = inl (JsonOpenError cause)) \/
  (status = 0 /\
   (exists manifest, get_dbt_manifest args = inr manifest) /\
   (files_run (filenames args)).1 = None).
Proof.
  destruct (main_cases args t)
    as [(cause & Hm & ->)|[(e & Hm & _ & ->)|(manifest & Hm & ->)]].
  - intros [= <-]. left. eauto.
  - done.
  - destruct (files_run (filenames args)) as [[e|] evs]; [done|].
    intros [= <-]. right. eauto.
Qed.

(** X16.  The only line a run prints is the message of a manifest that
    cannot be loaded. *)
Theorem main_prints_manifest_message_only args line :
  Print line ∈ trace (main args []) ->
  exists cause,
    get_dbt_manifest args = inl (JsonOpenError cause) /\
    line = ["Unable to load manifest file (" +:+ cause +:+ ")"].
Proof.
  destruct (main_cases args [])
    as [(cause & Hm & ->)|[(e & Hm & _ & ->)|(manifest & Hm & ->)]].
  - unfold trace. simpl.
    intros [[= ->]|?%elem_of_nil]%elem_of_cons; [eauto|done].
  - unfold trace. simpl. by intros ?%elem_of_nil.
  - pose proof (files_run_no_print read_text sqlfluff_parse red yellow
                  (filenames args) line) as Hno.
    destruct (files_run (filenames args)) as [[e|] evs];
      unfold trace; simpl in *; [done|].
    intros [?|[?|?%elem_of_nil]%elem_of_cons]%elem_of_app; done.
Qed.

(** X17.  The telemetry event is sent exactly when [main] returns 0, once,
    with status 0; a run that raises or that fails on the manifest sends
    none. *)
Theorem telemetry_on_success_only args :
  telemetry (trace (main args [])) =
    match outcome (main args []) with
    | inr status =>
        if bool_decide (status = 0)
        then [TrackHookEvent "Hook Executed" 0 (is_test args)]
        else []
    | inl _ => []
    end.
Proof.
  destruct (main_cases args [])
    as [(cause & Hm & ->)|[(e & Hm & _ & ->)|(manifest & Hm & ->)]];
    [done|done|].
  destruct (files_run_measures (filenames args)) as (_ & _ & Htel & _).
  destruct (files_run (filenames args)) as [[e|] evs];
    unfold trace, outcome; simpl in *; [done|].
  by rewrite telemetry_app, Htel.
Qed.

(** X18.  The files are read in the order of the command line, one read
    for every listed name, up to the first that fails; the grammar is asked
    at most once for every file read. *)
Theorem main_reads_in_order args :
  reads (trace (main args [])) `prefix_of` filenames args /\
  (length (parses (trace (main args [])))
     <= length (reads (trace (main args []))))%nat.
Proof.
  destruct (main_cases args [])
    as [(cause & Hm & ->)|[(e & Hm & _ & ->)|(manifest & Hm & ->)]].
  - split; [apply prefix_nil|done].
  - split; [apply prefix_nil|done].
  - destruct (files_run_measures (filenames args)) as (Hpre & Hle & _ & _).
    destruct (files_run (filenames args)) as [[e|] evs];
      unfold trace; simpl in *; [done|].
    rewrite reads_app, parses_app, !app_nil_r. done.
Qed.

(** X19.  When [main] returns 0 every file of the command line has been
    read and handed to the grammar. *)
Theorem main_checks_every_file args :
  outcome (main args []) = inr 0 ->
  reads (trace (main args [])) = filenames args /\
  length (parses (trace (main args []))) = length (filenames args).
Proof.
  destruct (main_cases args [])
    as [(cause & Hm & ->)|[(e & Hm & _ & ->)|(manifest & Hm & ->)]];
    [done|done|].
  destruct (files_run_measures (filenames args)) as (_ & _ & _ & Hall).
  destruct (files_run (filenames args)) as [[e|] evs];
    unfold trace, outcome; simpl in *; [done|].
  intros _. rewrite reads_app, parses_app, !app_nil_r. by apply Hall.
Qed.

(** X20.  A file that cannot be read ends the run like a file that cannot
    be parsed: the exception of [read_text] leaves [main] after the files
    before it have been checked; the grammar is not asked for the failing
    file, the files after it are not read, and no telemetry event is
    sent. *)
Theorem read_failure_propagates args manifest before f after e t :
  get_dbt_manifest args = inr manifest ->
  filenames args = before ++ f :: after ->
  (forall g, g ∈ before -> is_Some (tables_of g)) ->
  read_text f = inl e ->
  main args t = (inl e, t ++ (files_run before).2 ++ [ReadText f]).
Proof.
  intros Hm Hf Hall Hr.
  rewrite (main_run _ _ _ _ _ _ _ _ Hm), Hf, (files_run_app _ _ _ _ Hall).
  cbn [Runner.files_run]. by rewrite Hr.
Qed.

(** X21.  Of the exceptions of the manifest loader only [JsonOpenError] is
    caught: any other leaves [main] at once, with nothing printed and no
    file read. *)
Theorem other_manifest_errors_propagate args e t :
  get_dbt_manifest args = inl e ->
  (forall cause, e <> JsonOpenError cause) ->
  main args t = (inl e, t).
Proof.
  intros Hm Hne. unfold Runner.main. rewrite Hm.
  destruct e as [cause| |]; [by destruct (Hne cause)|done|done].
Qed.

Lemma untracked_app t u : untracked (t ++ u) = untracked t ++ untracked u.
Proof. apply bind_app. Qed.

(** X22.  The options [--dialect] and [--ignore-dotless-table] do not
    change what a run returns, reads, hands to the grammar or prints: two
    argument sets with the same files and the same answer of the manifest
    loader give the same outcome and, the telemetry events apart, the same
    events. *)
Theorem main_ignores_options args args' t :
  filenames args = filenames args' ->
  get_dbt_manifest args = get_dbt_manifest args' ->
  outcome (main args t) = outcome (main args' t) /\
  untracked (trace (main args t)) = untracked (trace (main args' t)).
Proof.
  intros Hf Hm.
  destruct (main_cases args t)
    as [(cause & Hm1 & ->)|[(e & Hm1 & He & ->)|(manifest & Hm1 & ->)]];
    destruct (main_cases args' t)
    as [(cause' & Hm2 & ->)|[(e' & Hm2 & He' & ->)|(manifest' & Hm2 & ->)]];
    try congruence.
  - by replace cause' with cause by congruence.
  - by replace e' with e by congruence.
  - rewrite Hf.
    destruct (files_run (filenames args')) as [[e|] evs];
      unfold trace, outcome; simpl; [done|].
    split; [done|]. by rewrite !untracked_app.
Qed.

(** The texts the loop hands to the grammar, by position. *)
Lemma files_run_parses todo : forall (i : nat) sql,
  parses (files_run todo).2 !! i = Some sql ->
  exists f, todo !! i = Some f /\ read_text f = inr sql.
Proof.
  induction todo as [|f todo IH]; intros i sql; cbn [Runner.files_run].
  { by destruct i. }
  destruct (read_text f) as [e|sql0] eqn:Hr.
  { by destruct i. }
  destruct (sqlfluff_parse ansi_config sql0) as [e|refs].
  { destruct i as [|i]; [|by destruct i]. intros [= <-]. by exists f. }
  destruct (files_run todo) as [o evs].
  change (parses (ReadText f :: Parse ansi_config sql0 :: evs))
    with (sql0 :: parses evs).
  destruct i as [|i].
  - intros [= <-]. by exists f.
  - apply IH.
Qed.

(** C7 (amended).  For each input file the text handed to the SQL grammar
    is the raw text read from that file, unchanged: the text of the i-th
    request to the grammar is the raw text of the i-th listed file.  No
    normalization step comes before the extraction. *)
Theorem grammar_receives_file_text args (i : nat) sql :
  parses (trace (main args [])) !! i = Some sql ->
  exists f, filenames args !! i = Some f /\ read_text f = inr sql.
Proof.
  destruct (main_cases args [])
    as [(cause & Hm & ->)|[(e & Hm & _ & ->)|(manifest & Hm & ->)]].
  - by destruct i.
  - by destruct i.
  - pose proof (files_run_parses (filenames args) i sql) as Hp.
    destruct (files_run (filenames args)) as [[e|] evs];
      unfold trace; simpl in *; [done|].
    by rewrite parses_app, app_nil_r.
Qed.

End MoreRunnerFacts.

(* ===================================================================== *)
(** ** The further facts on sample inputs                                  *)
(* ===================================================================== *)

Section ExtrasOnSamples.

Local Open Scope string_scope.
Local Open Scope list_scope.
Local Open Scope Z_scope.

Import Scenario.

(** Witness of X1: an opener without closer. *)
Lemma replace_comments_unchanged_witness :
  replace_comments "SELECT a /* kept" = "SELECT a /* kept".
Proof.
  apply (replace_comments_unchanged "SELECT a /* kept").
  - reflexivity.
  - right. split; reflexivity.
Defined.

(** Witness of X2: a Jinja opener closed by a SQL closer. *)
Lemma replace_comments_block_body_witness :
  replace_comments ("{#" +:+ " one, two " +:+ "*/") = "{#" +:+ "*/".
Proof.
  apply (replace_comments_block_body "{#" " one, two " "*/").
  - by right.
  - by left.
  - discriminate.
  - reflexivity.
Defined.

(** Witness of X3: two lines with a comment each. *)
Lemma replace_comments_keeps_line_feeds_witness :
  line_feeds (chars (replace_comments
                       ("SELECT a -- x" +:+ nl +:+ "FROM t -- y" +:+ nl)))
  = line_feeds (chars ("SELECT a -- x" +:+ nl +:+ "FROM t -- y" +:+ nl)).
Proof.
  apply (replace_comments_keeps_line_feeds
           ("SELECT a -- x" +:+ nl +:+ "FROM t -- y" +:+ nl)).
  - reflexivity.
  - reflexivity.
Defined.

(** Witness of X4. *)
Lemma replace_comments_trailing_comment_witness :
  replace_comments ("SELECT a" +:+ "  " +:+ "--" +:+ " pick a") = "SELECT a".
Proof.
  apply (replace_comments_trailing_comment "SELECT a" "  " " pick a").
  - reflexivity.
  - reflexivity.
  - reflexivity.
  - intros x [= <-]. reflexivity.
  - reflexivity.
  - reflexivity.
Defined.

(** Witness of X7: [f(x)] becomes [f ( x ) ]. *)
Lemma parenthesis_between_spaces_witness :
  exists j, 2%nat = S j /\
    chars (add_space_to_parenthesis "f(x)") !! j = Some " "%char /\
    chars (add_space_to_parenthesis "f(x)") !! 3%nat = Some " "%char.
Proof.
  apply (parenthesis_between_spaces "f(x)" 2 "("%char).
  - reflexivity.
  - reflexivity.
Defined.

(** Witness of X8. *)
Lemma brace_between_spaces_witness :
  exists j, 5%nat = S j /\
    chars (add_space_to_braces "{a}") !! j = Some " "%char /\
    chars (add_space_to_braces "{a}") !! 6%nat = Some " "%char.
Proof.
  apply (brace_between_spaces "{a}" 5 "}"%char).
  - reflexivity.
  - reflexivity.
Defined.

(** Witness of X11: single braces. *)
Lemma source_ref_unchanged_witness :
  add_space_to_source_ref "{% if a %}{ b }" = "{% if a %}{ b }".
Proof.
  apply (source_ref_unchanged "{% if a %}{ b }").
  - reflexivity.
  - reflexivity.
Defined.

(** Witness of X15. *)
Lemma main_status_codes_witness :
  (0 = 1 /\
   exists cause,
     manifest_loaded (args_of ["models/orders.sql"])
       = inl (JsonOpenError cause)) \/
  (0 = 0 /\
   (exists manifest,
      manifest_loaded (args_of ["models/orders.sql"]) = inr manifest) /\
   (files_run read_text sqlfluff_parse
      (filenames (args_of ["models/orders.sql"]))).1 = None).
Proof.
  apply (main_status_codes manifest_loaded read_text sqlfluff_parse
           red yellow (args_of ["models/orders.sql"]) [] 0).
  reflexivity.
Defined.

(** Witness of X16. *)
Lemma main_prints_manifest_message_only_witness :
  exists cause,
    manifest_missing (args_of ["models/orders.sql"])
      = inl (JsonOpenError cause) /\
    ["Unable to load manifest file ([Errno 2] No such file or directory: 'target/manifest.json')"]
      = ["Unable to load manifest file (" +:+ cause +:+ ")"].
Proof.
  apply (main_prints_manifest_message_only
           manifest_missing read_text sqlfluff_parse red yellow
           (args_of ["models/orders.sql"])).
  left.
Defined.

(** Witness of X19. *)
Lemma main_checks_every_file_witness :
  reads (trace (run (args_of ["models/orders.sql"; "models/two.sql"])))
    = ["models/orders.sql"; "models/two.sql"] /\
  length (parses (trace (run (args_of ["models/orders.sql";
                                       "models/two.sql"]))))
    = 2%nat.
Proof.
  apply (main_checks_every_file manifest_loaded read_text sqlfluff_parse
           red yellow (args_of ["models/orders.sql"; "models/two.sql"])).
  reflexivity.
Defined.

(** Witness of X20: the second of three files does not exist. *)
Lemma read_failure_propagates_witness :
  run (args_of ["models/two.sql"; "models/gone.sql"; "models/orders.sql"])
  = (inl (OSError "models/gone.sql"),
     [] ++ (files_run read_text sqlfluff_parse ["models/two.sql"]).2
        ++ [ReadText "models/gone.sql"]).
Proof.
  apply (read_failure_propagates manifest_loaded read_text sqlfluff_parse
           red yellow
           (args_of ["models/two.sql"; "models/gone.sql";
                     "models/orders.sql"])
           tt ["models/two.sql"] "models/gone.sql" ["models/orders.sql"]
           (OSError "models/gone.sql") []).
  - reflexivity.
  - reflexivity.
  - intros g Hg. apply list_elem_of_singleton in Hg as ->. by eexists.
  - reflexivity.
Defined.

(** Witness of X21: the manifest cannot be opened for lack of rights. *)
Lemma other_manifest_errors_propagate_witness :
  main (fun _ => inl (OSError "Permission denied") : exn + unit)
    read_text sqlfluff_parse red yellow (args_of ["models/orders.sql"]) []
  = (inl (OSError "Permission denied"), []).
Proof.
  apply (other_manifest_errors_propagate
           (fun _ => inl (OSError "Permission denied") : exn + unit)
           read_text sqlfluff_parse red yellow
           (args_of ["models/orders.sql"]) (OSError "Permission denied") []).
  - reflexivity.
  - discriminate.
Defined.

(** Witness of X22. *)
Lemma main_ignores_options_witness :
  let args := {| filenames := ["models/local.sql"];
                 ignore_dotless_table := true;
                 dialect := "snowflake"; is_test := None |} in
  outcome (run args) = outcome (run (args_of ["models/local.sql"])) /\
  untracked (trace (run args))
    = untracked (trace (run (args_of ["models/local.sql"]))).
Proof.
  intros args.
  apply (main_ignores_options manifest_loaded read_text sqlfluff_parse
           red yellow args (args_of ["models/local.sql"]) []).
  - reflexivity.
  - reflexivity.
Defined.

(** Witness of C7 (amended): the second request to the grammar carries the
    text of the second file. *)
Lemma grammar_receives_file_text_witness :
  parses (trace (run (args_of ["models/one.sql"; "models/orders.sql"])))
    !! 1%nat = Some "SELECT * FROM raw.orders" /\
  exists f,
    filenames (args_of ["models/one.sql"; "models/orders.sql"]) !! 1%nat
      = Some f /\
    read_text f = inr "SELECT * FROM raw.orders".
Proof.
  split; [reflexivity|].
  apply (grammar_receives_file_text
           manifest_loaded read_text sqlfluff_parse red yellow
           (args_of ["models/one.sql"; "models/orders.sql"]) 1
           "SELECT * FROM raw.orders").
  reflexivity.
Defined.

End ExtrasOnSamples.
